(** * Nuitka optimizer nodes: exception raising and dynamic execution

    A shallow embedding of [nuitka/nodes/ExceptionNodes.py] and
    [nuitka/nodes/ExecEvalNodes.py].  Every node class is a module holding
    the record of its instance attributes and its methods; the trace
    collection the methods receive is threaded as explicit state. *)

From stdpp Require Import base option list strings gmap.

Set Default Proof Using "Type".
Set Warnings "-register-all".
Open Scope string_scope.
Open Scope list_scope.

(** ** Shared vocabulary *)

(** Python's [x is None] and [x is not None] on an optional child. *)
Definition is_None {A} (x : option A) : bool :=
  match x with None => true | Some _ => false end.

Definition is_not_None {A} (x : option A) : bool := negb (is_None x).

(** Exception classes are referred to by name; the only one the two files
    name is [BaseException]. *)
Definition ExceptionClass : Type := string.
Definition BaseException : ExceptionClass := "BaseException".

(** A source location, the identity of a locals scope, a variable trace and
    a reference to a parent node. *)
Definition SourceRef : Type := nat.
Definition LocalsScope : Type := nat.
Definition VariableTrace : Type := nat.
Definition NodeRef : Type := nat.

(** Faults of the optimizer itself (Python exceptions escaping a method),
    as opposed to the exceptions of the compiled program, which are data. *)
Inductive Fault : Type :=
  | AssertionError
  | AttributeError (attribute : string).

(** A method either returns or lets a fault escape. *)
Definition Result (A : Type) : Type := Fault + A.

Definition ok {A} (a : A) : Result A := inr a.

Definition raise {A} (f : Fault) : Result A := inl f.

Definition and_then {A B} (m : Result A) (k : A -> Result B) : Result B :=
  match m with
  | inl f => inl f
  | inr a => k a
  end.

Notation "'do!' x ':=' m 'in' k" :=
  (and_then m (fun x => k))
  (at level 10, x pattern, m at level 100, k at level 200).

(** Python's [assert]. *)
Definition assert (condition : bool) : Result unit :=
  if condition then ok tt else raise AssertionError.

(** The result of a compute call: [return self, None, None], or a
    replacement ([None] deletes the node) with its change tag and
    description. *)
Inductive ChangeResult (Self New : Type) : Type :=
  | Unchanged (self : Self)
  | Replaced (result : option New) (change_tags change_desc : string).
Arguments Unchanged {Self New} self.
Arguments Replaced {Self New} result change_tags change_desc.

(** ** The expression interface

    The statements of the two files only talk to their children through
    the methods every expression node has.  The classes of the children
    live in other files, so the methods are an interface. *)
Module Expression.

(** What a compute pass knows: recorded exception exits (oldest first),
    the variable traces recorded per locals scope, and the knowledge
    about variables. *)
Record Facts : Type := mkFacts {
  exception_exits : list ExceptionClass;
  locals_usage : gmap LocalsScope (list VariableTrace);
  knowledge : gmap string string;
}.

(** What the statements ask of a child.  [computeExpression] is the
    child's own compute contract as [onExpression] drives it: the possibly
    replaced node and the facts afterwards. *)
Class Interface (E : Type) : Type := {
  computeExpression : E -> Facts -> E * Facts;
  mayRaiseException : E -> ExceptionClass -> bool;
  willRaiseAnyException : E -> bool;
  isExpressionConstantNoneRef : E -> bool;
  getStrValue : E -> option string;
}.

End Expression.

(** ** The trace collection *)
Module TraceCollection.

(** The calls a statement under computation makes on its collection. *)
Inductive Call (E : Type) : Type :=
  | OnExpression (expression : option E)
  | OnExceptionRaiseExit (exception_type : ExceptionClass)
  | OnLocalsUsage (locals_scope : LocalsScope)
  | RemoveAllKnowledge.
Arguments OnExpression {E} expression.
Arguments OnExceptionRaiseExit {E} exception_type.
Arguments OnLocalsUsage {E} locals_scope.
Arguments RemoveAllKnowledge {E}.

(** The facts, and the history of the calls made by the node under
    computation, oldest first.  The history is ghost state: it is what
    lets the order of the calls be stated. *)
Record t (E : Type) : Type := mk {
  facts : Expression.Facts;
  calls : list (Call E);
}.
Arguments mk {E} facts calls.
Arguments facts {E} _.
Arguments calls {E} _.

(** Methods run in the state monad of the collection. *)
Definition Tracing (E A : Type) : Type := t E -> A * t E.

Definition ret {E A} (a : A) : Tracing E A := fun tc => (a, tc).

Definition bind {E A B} (m : Tracing E A) (k : A -> Tracing E B)
  : Tracing E B :=
  fun tc => let (a, tc') := m tc in k a tc'.

Definition record {E} (c : Call E) (tc : t E) : t E :=
  mk (facts tc) (calls tc ++ [c]).

Section methods.
Context {E : Type} `{!Expression.Interface E}.

(** Modelled from the spec: [TraceCollection.onExpression]
    (TraceCollections.py, whose source is missing) computes the
    expression through its own compute contract and returns the possibly
    replaced node. *)
Definition onExpression (expression : E) : Tracing E E :=
  fun tc =>
    let (e', f') := Expression.computeExpression expression (facts tc) in
    (e', mk f' (calls tc ++ [OnExpression (Some expression)])).

(** Modelled from the spec: [onExpression(..., allow_none=True)]; an
    absent expression is returned as absent and the facts stay as they
    are. *)
Definition onExpressionAllowNone (expression : option E)
  : Tracing E (option E) :=
  match expression with
  | None => fun tc => (None, record (OnExpression None) tc)
  | Some e => fun tc => let (e', tc') := onExpression e tc in (Some e', tc')
  end.

(** Modelled from the spec: [onExceptionRaiseExit] records that control
    may leave here by raising the given class. *)
Definition onExceptionRaiseExit (exception_type : ExceptionClass)
  : Tracing E unit :=
  fun tc =>
    let f := facts tc in
    (tt, mk (Expression.mkFacts
               (Expression.exception_exits f ++ [exception_type])
               (Expression.locals_usage f)
               (Expression.knowledge f))
            (calls tc ++ [OnExceptionRaiseExit exception_type])).

(** Modelled from the spec: [onLocalsUsage] returns the records
    accumulated for a locals scope. *)
Definition onLocalsUsage (locals_scope : LocalsScope)
  : Tracing E (list VariableTrace) :=
  fun tc =>
    (default [] (Expression.locals_usage (facts tc) !! locals_scope),
     record (OnLocalsUsage locals_scope) tc).

(** Modelled from the spec: [removeAllKnowledge] discards every
    accumulated fact about variables. *)
Definition removeAllKnowledge : Tracing E unit :=
  fun tc =>
    let f := facts tc in
    (tt, mk (Expression.mkFacts
               (Expression.exception_exits f)
               (Expression.locals_usage f)
               ∅)
            (calls tc ++ [RemoveAllKnowledge])).

End methods.

End TraceCollection.

Notation "'let!' x ':=' m 'in' k" :=
  (TraceCollection.bind m (fun x => k))
  (at level 10, x pattern, m at level 100, k at level 200).

(** ** Statements made by [NodeMakingHelpers] *)

(** The statements the helpers build: an expression evaluated for its side
    effects only, and a sequence of statements. *)
Inductive Statement (E : Type) : Type :=
  | StatementExpressionOnly (expression : E)
  | StatementsSequence (statements : list (Statement E)).
Arguments StatementExpressionOnly {E} expression.
Arguments StatementsSequence {E} statements.

(** The expressions a statement evaluates, in evaluation order. *)
Fixpoint getExpressions {E} (s : Statement E) : list E :=
  match s with
  | StatementExpressionOnly e => [e]
  | StatementsSequence l => concat (map getExpressions l)
  end.

Module NodeMakingHelpers.

(** Modelled from the spec: [makeStatementExpressionOnlyReplacementNode]
    (NodeMakingHelpers.py, whose source is missing) wraps the expression
    as a side-effect-only statement at the place of [node]. *)
Definition makeStatementExpressionOnlyReplacementNode {E Node}
  (expression : E) (node : Node) : Statement E :=
  StatementExpressionOnly expression.

(** Modelled from the spec: [makeStatementOnlyNodesFromExpressions]
    (NodeMakingHelpers.py, whose source is missing) turns the given
    children into a side-effect-only statement sequence, in the order
    given; an absent child is no child and contributes no statement. *)
Definition makeStatementOnlyNodesFromExpressions {E}
  (expressions : list (option E)) : Statement E :=
  StatementsSequence
  (map StatementExpressionOnly (omap id expressions)).

End NodeMakingHelpers.

(** ** [StatementRaiseException] and [StatementRaiseExceptionImplicit] *)
Module StatementRaiseException.
Import TraceCollection NodeMakingHelpers.

(** The two classes differ in [kind] (and the nice name) only. *)
Inductive Kind : Type :=
  | STATEMENT_RAISE_EXCEPTION
  | STATEMENT_RAISE_EXCEPTION_IMPLICIT.

Record t (E : Type) : Type := mk {
  kind : Kind;
  subnode_exception_type : option E;
  subnode_exception_value : option E;
  subnode_exception_trace : option E;
  subnode_exception_cause : option E;
  source_ref : SourceRef;
  reraise_finally : bool;
}.
Arguments mk {E}.
Arguments kind {E} _.
Arguments subnode_exception_type {E} _.
Arguments subnode_exception_value {E} _.
Arguments subnode_exception_trace {E} _.
Arguments subnode_exception_cause {E} _.
Arguments source_ref {E} _.
Arguments reraise_finally {E} _.

(** [__init__]: the three assertions, then the children are stored. *)
Definition __init__ {E} (kind : Kind)
    (exception_type exception_value exception_trace exception_cause : option E)
    (source_ref : SourceRef) : Result (t E) :=
  do! _ := assert (is_not_None exception_type) in
  do! _ := (if is_None exception_type
            then assert (is_None exception_value) else ok tt) in
  do! _ := (if is_None exception_value
            then assert (is_None exception_trace) else ok tt) in
  ok (mk kind exception_type exception_value exception_trace exception_cause
         source_ref false).

(** The nesting the constructor checks. *)
Definition well_nested {E} (self : t E) : Prop :=
  (subnode_exception_type self = None -> subnode_exception_value self = None)
  /\ (subnode_exception_value self = None ->
      subnode_exception_trace self = None).

(** A child computed in place takes its slot. *)
Definition setChild_exception_type {E} (self : t E) (v : option E) : t E :=
  mk (kind self) v (subnode_exception_value self)
     (subnode_exception_trace self) (subnode_exception_cause self)
     (source_ref self) (reraise_finally self).

Definition setChild_exception_value {E} (self : t E) (v : option E) : t E :=
  mk (kind self) (subnode_exception_type self) v
     (subnode_exception_trace self) (subnode_exception_cause self)
     (source_ref self) (reraise_finally self).

Definition setChild_exception_trace {E} (self : t E) (v : option E) : t E :=
  mk (kind self) (subnode_exception_type self) (subnode_exception_value self)
     v (subnode_exception_cause self)
     (source_ref self) (reraise_finally self).

Definition setChild_exception_cause {E} (self : t E) (v : option E) : t E :=
  mk (kind self) (subnode_exception_type self) (subnode_exception_value self)
     (subnode_exception_trace self) v
     (source_ref self) (reraise_finally self).

Section methods.
Context {E : Type} `{!Expression.Interface E}.

(** [x is not None and x.willRaiseAnyException()], keeping [x]. *)
Definition raising (x : option E) : option E :=
  match x with
  | Some e => if Expression.willRaiseAnyException e then Some e else None
  | None => None
  end.

Definition computeStatement (self : t E)
  : Tracing E (ChangeResult (t E) (Statement E)) :=
  let! exception_type :=
    onExpressionAllowNone (subnode_exception_type self) in
  let self := setChild_exception_type self exception_type in
  let! _ := onExceptionRaiseExit BaseException in
  match raising exception_type with
  | Some raiser =>
    let result := makeStatementExpressionOnlyReplacementNode raiser self in
    ret (Replaced (Some result) "new_raise"
      "Explicit raise already raises implicitly building exception type.")
  | None =>
  let! exception_value :=
    onExpressionAllowNone (subnode_exception_value self) in
  let self := setChild_exception_value self exception_value in
  match raising exception_value with
  | Some _ =>
    let result := makeStatementOnlyNodesFromExpressions
                    [exception_type; exception_value] in
    ret (Replaced (Some result) "new_raise"
      "Explicit raise already raises implicitly building exception value.")
  | None =>
  let! exception_trace :=
    onExpressionAllowNone (subnode_exception_trace self) in
  let self := setChild_exception_trace self exception_trace in
  match raising exception_trace with
  | Some _ =>
    let result := makeStatementOnlyNodesFromExpressions
                    [exception_type; exception_value; exception_trace] in
    ret (Replaced (Some result) "new_raise"
      "Explicit raise already raises implicitly building exception traceback.")
  | None =>
  let! exception_cause :=
    onExpressionAllowNone (subnode_exception_cause self) in
  let self := setChild_exception_cause self exception_cause in
  match raising exception_cause with
  | Some _ =>
    let result := makeStatementOnlyNodesFromExpressions
                    [exception_type; exception_cause] in
    ret (Replaced (Some result) "new_raise"
      "
Explicit raise already raises implicitly building exception cause.")
  | None => ret (Unchanged self)
  end end end end.

Definition isStatementAborting (self : t E) : bool := true.

Definition isStatementRaiseException (self : t E) : bool := true.

Definition willRaiseAnyException (self : t E) : bool := true.

Definition needsFrame (self : t E) : bool := true.

Definition getStatementNiceName (self : t E) : string :=
  match kind self with
  | STATEMENT_RAISE_EXCEPTION => "exception raise statement"
  | STATEMENT_RAISE_EXCEPTION_IMPLICIT => "implicit exception raise statement"
  end.

End methods.

End StatementRaiseException.

(** ** [StatementReraiseException] *)
Module StatementReraiseException.
Import TraceCollection.

Record t : Type := mk {
  source_ref : SourceRef;
  parent : option NodeRef;
}.

Definition finalize (self : t) : Result t :=
  match parent self with
  | Some _ => ok (mk (source_ref self) None)
  | None => raise (AttributeError "parent")
  end.

Definition computeStatement {E} (self : t)
  : Tracing E (ChangeResult t (Statement E)) :=
  let! _ := onExceptionRaiseExit BaseException in
  ret (Unchanged self).

Definition isStatementAborting (self : t) : bool := true.

Definition isStatementRaiseException (self : t) : bool := true.

Definition willRaiseAnyException (self : t) : bool := true.

Definition needsFrame (self : t) : bool := false.

Definition getStatementNiceName (self : t) : string :=
  "exception re-raise statement".

End StatementReraiseException.

(** ** [ExpressionRaiseException] *)
Module ExpressionRaiseException.
Import TraceCollection.

(** Both children are mandatory ([named_children] marks neither as
    optional).  [parent] is the back reference; [None] is the slot unset. *)
Record t (E : Type) : Type := mk {
  subnode_exception_type : E;
  subnode_exception_value : E;
  source_ref : SourceRef;
  parent : option NodeRef;
}.
Arguments mk {E}.
Arguments subnode_exception_type {E} _.
Arguments subnode_exception_value {E} _.
Arguments source_ref {E} _.
Arguments parent {E} _.

(** [del self.parent]: the slot must be set to be deleted. *)
Definition del_parent {E} (self : t E) : Result (t E) :=
  match parent self with
  | Some _ =>
    ok (mk (subnode_exception_type self) (subnode_exception_value self)
           (source_ref self) None)
  | None => raise (AttributeError "parent")
  end.

Definition willRaiseAnyException {E} (self : t E) : bool := true.

Definition computeExpression {E} (self : t E)
  : Tracing E (ChangeResult (t E) E) :=
  let! _ := onExceptionRaiseExit BaseException in
  ret (Unchanged self).

Definition asStatement {E} (self : t E)
  : Result (StatementRaiseException.t E) :=
  StatementRaiseException.__init__
    StatementRaiseException.STATEMENT_RAISE_EXCEPTION_IMPLICIT
    (Some (subnode_exception_type self))
    (Some (subnode_exception_value self))
    None
    None
    (source_ref self).

Definition computeExpressionDrop {E S} (self : t E) (statement : S)
    (trace_collection : TraceCollection.t E)
  : Result (t E * ChangeResult S (StatementRaiseException.t E)) :=
  do! result := asStatement self in
  do! self := del_parent self in
  ok (self,
      Replaced (Some result) "new_raise"
        "Propagated implicit raise expression to raise statement.").

End ExpressionRaiseException.

(** ** [ExpressionBuiltinMakeException] *)
Module ExpressionBuiltinMakeException.
Import TraceCollection.

Record t (E : Type) : Type := mk {
  exception_name : string;
  subnode_args : list E;
  source_ref : SourceRef;
}.
Arguments mk {E}.
Arguments exception_name {E} _.
Arguments subnode_args {E} _.
Arguments source_ref {E} _.

Definition __init__ {E} (exception_name : string) (args : list E)
    (source_ref : SourceRef) : t E :=
  mk exception_name args source_ref.

Definition getExceptionName {E} (self : t E) : string := exception_name self.

Section methods.
Context {E : Type} `{!Expression.Interface E}.

Definition computeExpression (self : t E)
  : Tracing E (ChangeResult (t E) E) :=
  ret (Unchanged self).

(** The loop [for arg in self.subnode_args], leaving at the first hit. *)
Fixpoint mayRaiseException_loop (args : list E)
    (exception_type : ExceptionClass) : bool :=
  match args with
  | [] => false
  | arg :: args' =>
    if Expression.mayRaiseException arg exception_type then true
    else mayRaiseException_loop args' exception_type
  end.

Definition mayRaiseException (self : t E) (exception_type : ExceptionClass)
  : bool :=
  mayRaiseException_loop (subnode_args self) exception_type.

End methods.

End ExpressionBuiltinMakeException.

(** ** [ExpressionBuiltinMakeExceptionImportError] *)
Module ExpressionBuiltinMakeExceptionImportError.
Import TraceCollection.

Record t (E : Type) : Type := mk {
  subnode_args : list E;
  subnode_name : option E;
  subnode_path : option E;
  source_ref : SourceRef;
}.
Arguments mk {E}.
Arguments subnode_args {E} _.
Arguments subnode_name {E} _.
Arguments subnode_path {E} _.
Arguments source_ref {E} _.

Definition getExceptionName {E} (self : t E) : string := "ImportError".

Section methods.
Context {E : Type} `{!Expression.Interface E}.

Definition computeExpression (self : t E)
  : Tracing E (ChangeResult (t E) E) :=
  ret (Unchanged self).

Fixpoint mayRaiseException_loop (args : list E)
    (exception_type : ExceptionClass) : bool :=
  match args with
  | [] => false
  | arg :: args' =>
    if Expression.mayRaiseException arg exception_type then true
    else mayRaiseException_loop args' exception_type
  end.

Definition mayRaiseException (self : t E) (exception_type : ExceptionClass)
  : bool :=
  mayRaiseException_loop (subnode_args self) exception_type.

End methods.

End ExpressionBuiltinMakeExceptionImportError.

(** ** [Checkers] *)
Module Checkers.

(** Modelled from the spec: [convertNoneConstantToNone] (Checkers.py,
    whose source is missing) turns a constant-[None] literal into an absent
    argument and leaves every other value as it is. *)
Definition convertNoneConstantToNone {E} `{!Expression.Interface E}
    (node : option E) : option E :=
  match node with
  | None => None
  | Some e =>
    if Expression.isExpressionConstantNoneRef e then None else Some e
  end.

End Checkers.

(** A node as a compute call may return it in place of an [exec]
    statement: an expression as it is, or a statement. *)
Inductive Node (E : Type) : Type :=
  | NodeExpression (expression : E)
  | NodeStatement (statement : Statement E).
Arguments NodeExpression {E} expression.
Arguments NodeStatement {E} statement.

(** The expressions a node evaluates, in evaluation order. *)
Definition getNodeExpressions {E} (n : Node E) : list E :=
  match n with
  | NodeExpression e => [e]
  | NodeStatement s => getExpressions s
  end.

(** ** [StatementExec] *)
Module StatementExec.
Import TraceCollection NodeMakingHelpers.

Record t (E : Type) : Type := mk {
  subnode_source : E;
  subnode_globals_arg : option E;
  subnode_locals_arg : option E;
  source_ref : SourceRef;
}.
Arguments mk {E}.
Arguments subnode_source {E} _.
Arguments subnode_globals_arg {E} _.
Arguments subnode_locals_arg {E} _.
Arguments source_ref {E} _.

Definition named_children : list string :=
  ["source"; "globals_arg"; "locals_arg"].

Definition setChild_source {E} (self : t E) (v : E) : t E :=
  mk v (subnode_globals_arg self) (subnode_locals_arg self) (source_ref self).

Definition setChild_globals_arg {E} (self : t E) (v : option E) : t E :=
  mk (subnode_source self) v (subnode_locals_arg self) (source_ref self).

Definition setChild_locals_arg {E} (self : t E) (v : option E) : t E :=
  mk (subnode_source self) (subnode_globals_arg self) v (source_ref self).

Section methods.
Context {E : Type} `{!Expression.Interface E}.

(** The class attribute [checkers]: child name to checker. *)
Definition checkers : gmap string (option E -> option E) :=
  <["globals_arg" := Checkers.convertNoneConstantToNone]>
    (<["locals_arg" := Checkers.convertNoneConstantToNone]> ∅).

(** Modelled from the spec: [StatementChildrenHavingBase.__init__]
    (NodeBases.py, whose source is missing) passes each value through the
    checker registered for its child name before storing it. *)
Definition checked (name : string) (value : option E) : option E :=
  match checkers !! name with
  | Some checker => checker value
  | None => value
  end.

Definition __init__ (source_code : E) (globals_arg locals_arg : option E)
    (source_ref : SourceRef) : t E :=
  mk source_code
     (checked "globals_arg" globals_arg)
     (checked "locals_arg" locals_arg)
     source_ref.

(** [x is not None and x.mayRaiseException(BaseException)]. *)
Definition may_raise (x : option E) : bool :=
  match x with
  | Some e => Expression.mayRaiseException e BaseException
  | None => false
  end.

(** [x is not None and x.willRaiseAnyException()]. *)
Definition will_raise (x : option E) : bool :=
  match x with
  | Some e => Expression.willRaiseAnyException e
  | None => false
  end.

(** [if condition: trace_collection.onExceptionRaiseExit(BaseException)]. *)
Definition exit_if (condition : bool) : Tracing E unit :=
  if condition then onExceptionRaiseExit BaseException else ret tt.

Definition computeStatement (self : t E)
  : Tracing E (ChangeResult (t E) (Node E)) :=
  let! source_code := onExpression (subnode_source self) in
  let self := setChild_source self source_code in
  let! _ := exit_if (Expression.mayRaiseException source_code BaseException) in
  if Expression.willRaiseAnyException source_code then
    let result := source_code in
    ret (Replaced (Some (NodeExpression result)) "new_raise"
      "Exec statement raises implicitly when determining source code argument.")
  else
  let! globals_arg := onExpressionAllowNone (subnode_globals_arg self) in
  let self := setChild_globals_arg self globals_arg in
  let! _ := exit_if (may_raise globals_arg) in
  if will_raise globals_arg then
    let result := makeStatementOnlyNodesFromExpressions
                    [Some source_code; globals_arg] in
    ret (Replaced (Some (NodeStatement result)) "new_raise"
      "Exec statement raises implicitly when determining globals argument.")
  else
  let! locals_arg := onExpressionAllowNone (subnode_locals_arg self) in
  let self := setChild_locals_arg self locals_arg in
  let! _ := exit_if (may_raise locals_arg) in
  if will_raise locals_arg then
    let result := makeStatementOnlyNodesFromExpressions
                    [Some source_code; globals_arg; locals_arg] in
    ret (Replaced (Some (NodeStatement result)) "new_raise"
      "Exec statement raises implicitly when determining locals argument.")
  else
  let! _ := onExceptionRaiseExit BaseException in
  let str_value := Expression.getStrValue (subnode_source self) in
  match str_value with
  | Some _ => ret (Unchanged self)
  | None => ret (Unchanged self)
  end.

End methods.

End StatementExec.

(** ** [ExpressionBuiltinExec] *)
Module ExpressionBuiltinExec.
Import TraceCollection.

Definition __slots__ : list string := ["in_early_closure"].

(** The children, and the attributes of [__slots__] that were assigned,
    by name: reading an attribute looks its name up. *)
Record t (E : Type) : Type := mk {
  subnode_source_code : E;
  subnode_globals_arg : option E;
  subnode_locals_arg : option E;
  source_ref : SourceRef;
  parent : option NodeRef;
  slots : gmap string bool;
}.
Arguments mk {E}.
Arguments subnode_source_code {E} _.
Arguments subnode_globals_arg {E} _.
Arguments subnode_locals_arg {E} _.
Arguments source_ref {E} _.
Arguments parent {E} _.
Arguments slots {E} _.

Definition __init__ {E} (in_early_closure : bool) (source_code : E)
    (globals_arg locals_arg : option E) (source_ref : SourceRef) : t E :=
  mk source_code globals_arg locals_arg source_ref None
     (<["in_early_closure" := in_early_closure]> ∅).

(** [self.<name>] on an attribute kept in a slot. *)
Definition getattr {E} (self : t E) (name : string) : Result bool :=
  match slots self !! name with
  | Some v => ok v
  | None => raise (AttributeError name)
  end.

(** The parent sets the back reference when it takes the child. *)
Definition setParent {E} (self : t E) (p : NodeRef) : t E :=
  mk (subnode_source_code self) (subnode_globals_arg self)
     (subnode_locals_arg self) (source_ref self) (Some p) (slots self).

(** [del self.parent]. *)
Definition del_parent {E} (self : t E) : Result (t E) :=
  match parent self with
  | Some _ =>
    ok (mk (subnode_source_code self) (subnode_globals_arg self)
           (subnode_locals_arg self) (source_ref self) None (slots self))
  | None => raise (AttributeError "parent")
  end.

Definition getDetails {E} (self : t E) : Result (gmap string bool) :=
  do! in_early_closure := getattr self "in_early_closure" in
  ok (<["in_early_closure" := in_early_closure]> ∅).

Section methods.
Context {E : Type} `{!Expression.Interface E}.

Definition computeExpression (self : t E)
  : Tracing E (ChangeResult (t E) E) :=
  ret (Unchanged self).

Definition computeExpressionDrop {S} (self : t E) (statement : S)
    (trace_collection : TraceCollection.t E)
  : Result (t E * ChangeResult S (StatementExec.t E)) :=
  do! early_closure := getattr self "early_closure" in
  if early_closure then
    let result :=
      StatementExec.__init__
        (subnode_source_code self)
        (subnode_globals_arg self)
        (subnode_locals_arg self)
        (source_ref self) in
    do! self := del_parent self in
    ok (self,
        Replaced (Some result) "new_statements"
          "Replaced built-in exec call to exec statement in early closure context.")
  else
    ok (self, Unchanged statement).

End methods.

End ExpressionBuiltinExec.

(** ** [ExpressionBuiltinExecfile] *)
Module ExpressionBuiltinExecfile.
Import TraceCollection.

Definition __slots__ : list string := ["in_class_body"].

Record t (E : Type) : Type := mk {
  subnode_source_code : E;
  subnode_globals_arg : option E;
  subnode_locals_arg : option E;
  source_ref : SourceRef;
  parent : option NodeRef;
  slots : gmap string bool;
}.
Arguments mk {E}.
Arguments subnode_source_code {E} _.
Arguments subnode_globals_arg {E} _.
Arguments subnode_locals_arg {E} _.
Arguments source_ref {E} _.
Arguments parent {E} _.
Arguments slots {E} _.

Definition __init__ {E} (in_class_body : bool) (source_code : E)
    (globals_arg locals_arg : option E) (source_ref : SourceRef) : t E :=
  mk source_code globals_arg locals_arg source_ref None
     (<["in_class_body" := in_class_body]> ∅).

Definition getattr {E} (self : t E) (name : string) : Result bool :=
  match slots self !! name with
  | Some v => ok v
  | None => raise (AttributeError name)
  end.

Definition setParent {E} (self : t E) (p : NodeRef) : t E :=
  mk (subnode_source_code self) (subnode_globals_arg self)
     (subnode_locals_arg self) (source_ref self) (Some p) (slots self).

Definition del_parent {E} (self : t E) : Result (t E) :=
  match parent self with
  | Some _ =>
    ok (mk (subnode_source_code self) (subnode_globals_arg self)
           (subnode_locals_arg self) (source_ref self) None (slots self))
  | None => raise (AttributeError "parent")
  end.

Section methods.
Context {E : Type} `{!Expression.Interface E}.

Definition computeExpression (self : t E)
  : Tracing E (ChangeResult (t E) E) :=
  let! _ := onExceptionRaiseExit BaseException in
  ret (Unchanged self).

Definition computeExpressionDrop {S} (self : t E) (statement : S)
    (trace_collection : TraceCollection.t E)
  : Result (t E * ChangeResult S (StatementExec.t E)) :=
  do! in_class_body := getattr self "in_class_body" in
  if in_class_body then
    let result :=
      StatementExec.__init__
        (subnode_source_code self)
        (subnode_globals_arg self)
        (subnode_locals_arg self)
        (source_ref self) in
    do! self := del_parent self in
    ok (self,
        Replaced (Some result) "new_statements"
          "Changed 'execfile' with unused result to 'exec' on class level.")
  else
    ok (self, Unchanged statement).

End methods.

End ExpressionBuiltinExecfile.

(** ** [StatementLocalsDictSync] *)

(** The variable providers a statement can sit in. *)
Inductive VariableProvider : Type :=
  | CompiledPythonModule (name : string)
  | FunctionBody (name : string)
  | ClassBody (name : string).

Definition isCompiledPythonModule (provider : VariableProvider) : bool :=
  match provider with
  | CompiledPythonModule _ => true
  | _ => false
  end.

(** Modelled from the spec: what the class inherits from its bases in
    NodeBases.py, whose source is missing: computing the single child, and
    finding the enclosing variable provider through the parent link.  Both
    are left open, as an interface. *)
Class StatementChildHavingBase (E Self : Type) : Type := {
  computeStatementSubExpressions :
    Self -> TraceCollection.Tracing E (ChangeResult Self (Node E));
  getParentVariableProvider : Self -> VariableProvider;
}.

Module StatementLocalsDictSync.
Import TraceCollection.

Record t (E : Type) : Type := mk {
  subnode_locals_arg : E;
  locals_scope : LocalsScope;
  previous_traces : option (list VariableTrace);
  variable_traces : option (list VariableTrace);
  source_ref : SourceRef;
  parent : option VariableProvider;
}.
Arguments mk {E}.
Arguments subnode_locals_arg {E} _.
Arguments locals_scope {E} _.
Arguments previous_traces {E} _.
Arguments variable_traces {E} _.
Arguments source_ref {E} _.
Arguments parent {E} _.

Definition __init__ {E} (locals_scope : LocalsScope) (locals_arg : E)
    (source_ref : SourceRef) : t E :=
  mk locals_arg locals_scope None None source_ref None.

Definition getPreviousVariablesTraces {E} (self : t E)
  : option (list VariableTrace) :=
  previous_traces self.

Definition set_previous_traces {E} (self : t E) (v : list VariableTrace)
  : t E :=
  mk (subnode_locals_arg self) (locals_scope self) (Some v)
     (variable_traces self) (source_ref self) (parent self).

Definition set_variable_traces {E} (self : t E) (v : list VariableTrace)
  : t E :=
  mk (subnode_locals_arg self) (locals_scope self) (previous_traces self)
     (Some v) (source_ref self) (parent self).

(** [not self.previous_traces]. *)
Definition is_empty (traces : list VariableTrace) : bool :=
  match traces with
  | [] => true
  | _ :: _ => false
  end.

Section methods.
Context {E : Type} `{!StatementChildHavingBase E (t E)}.

Definition computeStatement (self : t E)
  : Tracing E (ChangeResult (t E) (Node E)) :=
  let! sub := computeStatementSubExpressions self in
  match sub with
  | Replaced result change_tags change_desc =>
    ret (Replaced result change_tags change_desc)
  | Unchanged self =>
    let provider := getParentVariableProvider self in
    if isCompiledPythonModule provider then
      ret (Replaced None "new_statements"
             "Removed sync back to locals without locals.")
    else
    let! previous_traces := onLocalsUsage (locals_scope self) in
    let self := set_previous_traces self previous_traces in
    if is_empty previous_traces then
      ret (Replaced None "new_statements"
             "Removed sync back to locals without locals.")
    else
    let! _ := removeAllKnowledge in
    let! variable_traces := onLocalsUsage (locals_scope self) in
    let self := set_variable_traces self variable_traces in
    ret (Unchanged self)
  end.

Definition mayRaiseException (exception_type : ExceptionClass) : bool :=
  false.

End methods.

End StatementLocalsDictSync.

(** ** A small expression language

    A concrete family of expression nodes to run the methods on. *)
Module Sample.

Inductive expr : Type :=
  | ConstantNone
  | ConstantStr (value : string)
  | VariableRef (name : string)
  | CallNamed (callee : string)
  | DivisionByZero
  | RaiseExpr (exception : ExceptionClass).

Definition record_exit (c : ExceptionClass) (f : Expression.Facts)
  : Expression.Facts :=
  Expression.mkFacts (Expression.exception_exits f ++ [c])
                     (Expression.locals_usage f)
                     (Expression.knowledge f).

(** [1/0] is found to raise and becomes a raise expression; the other
    nodes stay. *)
#[global] Instance expr_interface : Expression.Interface expr := {
  computeExpression e f :=
    match e with
    | DivisionByZero =>
      (RaiseExpr "ZeroDivisionError", record_exit "ZeroDivisionError" f)
    | RaiseExpr c => (e, record_exit c f)
    | _ => (e, f)
    end;
  mayRaiseException e _ :=
    match e with
    | ConstantNone | ConstantStr _ => false
    | _ => true
    end;
  willRaiseAnyException e :=
    match e with
    | RaiseExpr _ => true
    | _ => false
    end;
  isExpressionConstantNoneRef e :=
    match e with
    | ConstantNone => true
    | _ => false
    end;
  getStrValue e :=
    match e with
    | ConstantStr s => Some s
    | _ => None
    end;
}.

(** The single child is computed in place; the provider is what the
    parent link holds, a module when there is none. *)
#[global] Instance locals_sync_base
  : StatementChildHavingBase expr (StatementLocalsDictSync.t expr) := {
  computeStatementSubExpressions self :=
    let! locals_arg :=
      TraceCollection.onExpression
        (StatementLocalsDictSync.subnode_locals_arg self) in
    TraceCollection.ret
      (Unchanged
         (StatementLocalsDictSync.mk locals_arg
            (StatementLocalsDictSync.locals_scope self)
            (StatementLocalsDictSync.previous_traces self)
            (StatementLocalsDictSync.variable_traces self)
            (StatementLocalsDictSync.source_ref self)
            (StatementLocalsDictSync.parent self)));
  getParentVariableProvider self :=
    default (CompiledPythonModule "__main__")
            (StatementLocalsDictSync.parent self);
}.

(** A collection with nothing recorded. *)
Definition empty_facts : Expression.Facts := Expression.mkFacts [] ∅ ∅.

Definition empty_collection : TraceCollection.t expr :=
  TraceCollection.mk empty_facts [].

End Sample.

(** * Properties *)

(** ** The helper statements *)

(** A helper-made sequence evaluates the children given, those present, in
    the order given. *)
Lemma getExpressions_makeStatementOnlyNodes {E} (expressions : list (option E)) :
  getExpressions
    (NodeMakingHelpers.makeStatementOnlyNodesFromExpressions expressions)
  = omap id expressions.
Proof.
  unfold NodeMakingHelpers.makeStatementOnlyNodesFromExpressions. cbn.
  induction (omap id expressions) as [|e es IH]; cbn; [reflexivity|].
  now rewrite IH.
Qed.

(** ** The constructor of [StatementRaiseException] *)
Section raise_init.
Context {E : Type}.
Import StatementRaiseException.

(** The constructor returns exactly when the type is given and no traceback
    comes without a value; the node then holds the children as given. *)
Lemma init_ok_iff (k : Kind) (ty v tr c : option E) (ref : SourceRef)
    (self : t E) :
  __init__ k ty v tr c ref = ok self <->
  ty <> None /\ (v = None -> tr = None) /\ self = mk k ty v tr c ref false.
Proof.
  unfold __init__, assert, and_then, ok, raise.
  destruct ty as [ty|], v as [v|], tr as [tr|]; simpl;
    split; intros Hx;
    try discriminate Hx;
    try (injection Hx as <-; repeat split; congruence);
    try (destruct Hx as (H1 & H2 & ->); try reflexivity;
         exfalso; first [ now apply H1 | now specialize (H2 eq_refl) ]).
Qed.

(** C6: constructing a raise statement with a value but no type, or with a
    traceback but no value, fails an assertion; every node the constructor
    returns has its children nested, value only with a type and traceback
    only with a value. *)
Theorem raise_init_nesting (k : Kind) (ty v tr c : option E)
    (ref : SourceRef) :
  (ty = None -> v <> None -> __init__ k ty v tr c ref = raise AssertionError)
  /\ (v = None -> tr <> None ->
      __init__ k ty v tr c ref = raise AssertionError)
  /\ (forall self, __init__ k ty v tr c ref = ok self -> well_nested self).
Proof.
  split; [|split].
  - intros -> _. reflexivity.
  - intros -> Htr. destruct ty, tr; try congruence; reflexivity.
  - intros self Hok. apply init_ok_iff in Hok as (Hty & Hv & ->).
    split; simpl; intros; [congruence | auto].
Qed.

End raise_init.

(** A value without a type and a traceback without a value are refused; a
    type with a value is taken. *)
Lemma raise_init_nesting_witness :
  StatementRaiseException.__init__
    StatementRaiseException.STATEMENT_RAISE_EXCEPTION
    None (Some (Sample.ConstantStr "boom")) None None 7
  = raise AssertionError
  /\ StatementRaiseException.__init__
       StatementRaiseException.STATEMENT_RAISE_EXCEPTION
       (Some (Sample.VariableRef "ValueError")) None
       (Some (Sample.VariableRef "tb")) None 7
     = raise AssertionError
  /\ StatementRaiseException.well_nested
       (StatementRaiseException.mk
          StatementRaiseException.STATEMENT_RAISE_EXCEPTION
          (Some (Sample.VariableRef "ValueError"))
          (Some (Sample.ConstantStr "boom")) None None 7 false).
Proof.
  split; [|split].
  - apply (proj1 (raise_init_nesting
                    StatementRaiseException.STATEMENT_RAISE_EXCEPTION
                    None (Some (Sample.ConstantStr "boom")) None None 7));
      [reflexivity | discriminate].
  - apply (proj1 (proj2 (raise_init_nesting
                    StatementRaiseException.STATEMENT_RAISE_EXCEPTION
                    (Some (Sample.VariableRef "ValueError")) None
                    (Some (Sample.VariableRef "tb")) None 7)));
      [reflexivity | discriminate].
  - apply (proj2 (proj2 (raise_init_nesting
                    StatementRaiseException.STATEMENT_RAISE_EXCEPTION
                    (Some (Sample.VariableRef "ValueError"))
                    (Some (Sample.ConstantStr "boom")) None None 7))).
    reflexivity.
Defined.

(** ** [StatementRaiseException.computeStatement] *)
Section raise_compute.
Context {E : Type} `{!Expression.Interface E}.
Import TraceCollection StatementRaiseException.

(** The collection after the type was computed and the exit recorded. *)
Definition after_type (tc1 : TraceCollection.t E) : TraceCollection.t E :=
  snd (onExceptionRaiseExit BaseException tc1).

Lemma raising_Some (x : option E) (e : E) :
  raising x = Some e <-> x = Some e /\ Expression.willRaiseAnyException e = true.
Proof.
  unfold raising. destruct x as [e0|]; [|split; [discriminate|intros [? _]; discriminate]].
  destruct (Expression.willRaiseAnyException e0) eqn:Hw; split.
  - intros [= <-]. auto.
  - intros [[= <-] _]. reflexivity.
  - discriminate.
  - intros [[= <-] Hw']. congruence.
Qed.

Lemma raising_will (e : E) :
  Expression.willRaiseAnyException e = true -> raising (Some e) = Some e.
Proof. intros Hw. apply raising_Some. auto. Qed.

(** One step of the method: reduce what is known, keep the calls on the
    children folded. *)
Ltac step := cbn -[raising onExpressionAllowNone].
Ltac step_in H := cbn -[raising onExpressionAllowNone] in H.

(** The type raises: the replacement evaluates the type alone. *)
Lemma raise_type_prefix (self : t E) (tc tc1 : TraceCollection.t E) (ty : E) :
  onExpressionAllowNone (subnode_exception_type self) tc = (Some ty, tc1) ->
  Expression.willRaiseAnyException ty = true ->
  exists result desc,
    computeStatement self tc
    = (Replaced (Some result) "new_raise" desc, after_type tc1)
    /\ getExpressions result = [ty].
Proof.
  intros Hty Hw. unfold computeStatement, bind. rewrite Hty. step.
  rewrite (raising_will _ Hw). step. eauto.
Qed.

(** The value raises: the replacement evaluates type, then value. *)
Lemma raise_value_prefix (self : t E) (tc tc1 tc2 : TraceCollection.t E)
    (ty : option E) (v : E) :
  onExpressionAllowNone (subnode_exception_type self) tc = (ty, tc1) ->
  raising ty = None ->
  onExpressionAllowNone (subnode_exception_value self) (after_type tc1)
  = (Some v, tc2) ->
  Expression.willRaiseAnyException v = true ->
  exists result desc,
    computeStatement self tc = (Replaced (Some result) "new_raise" desc, tc2)
    /\ getExpressions result = omap id [ty; Some v].
Proof.
  intros Hty Hnty Hv Hw. unfold computeStatement, bind. rewrite Hty. step.
  rewrite Hnty. step. unfold after_type in Hv. step_in Hv. rewrite Hv. step.
  rewrite (raising_will _ Hw). step.
  do 2 eexists. split; [reflexivity|].
  destruct ty; simpl; reflexivity.
Qed.

(** The traceback raises: the replacement evaluates type, value, then
    traceback. *)
Lemma raise_trace_prefix (self : t E) (tc tc1 tc2 tc3 : TraceCollection.t E)
    (ty v : option E) (tr : E) :
  onExpressionAllowNone (subnode_exception_type self) tc = (ty, tc1) ->
  raising ty = None ->
  onExpressionAllowNone (subnode_exception_value self) (after_type tc1)
  = (v, tc2) ->
  raising v = None ->
  onExpressionAllowNone (subnode_exception_trace self) tc2 = (Some tr, tc3) ->
  Expression.willRaiseAnyException tr = true ->
  exists result desc,
    computeStatement self tc = (Replaced (Some result) "new_raise" desc, tc3)
    /\ getExpressions result = omap id [ty; v; Some tr].
Proof.
  intros Hty Hnty Hv Hnv Htr Hw. unfold computeStatement, bind.
  rewrite Hty. step. rewrite Hnty. step.
  unfold after_type in Hv. step_in Hv. rewrite Hv. step. rewrite Hnv. step.
  rewrite Htr. step. rewrite (raising_will _ Hw). step.
  do 2 eexists. split; [reflexivity|].
  destruct ty, v; simpl; reflexivity.
Qed.

(** The cause raises: the replacement evaluates the type and the cause;
    the value and the traceback, computed before the cause, are not in
    it. *)
Lemma raise_cause_replacement (self : t E)
    (tc tc1 tc2 tc3 tc4 : TraceCollection.t E) (ty v tr : option E) (c : E) :
  onExpressionAllowNone (subnode_exception_type self) tc = (ty, tc1) ->
  raising ty = None ->
  onExpressionAllowNone (subnode_exception_value self) (after_type tc1)
  = (v, tc2) ->
  raising v = None ->
  onExpressionAllowNone (subnode_exception_trace self) tc2 = (tr, tc3) ->
  raising tr = None ->
  onExpressionAllowNone (subnode_exception_cause self) tc3 = (Some c, tc4) ->
  Expression.willRaiseAnyException c = true ->
  exists result desc,
    computeStatement self tc = (Replaced (Some result) "new_raise" desc, tc4)
    /\ getExpressions result = omap id [ty; Some c].
Proof.
  intros Hty Hnty Hv Hnv Htr Hntr Hc Hw. unfold computeStatement, bind.
  rewrite Hty. step. rewrite Hnty. step.
  unfold after_type in Hv. step_in Hv. rewrite Hv. step. rewrite Hnv. step.
  rewrite Htr. step. rewrite Hntr. step. rewrite Hc. step.
  rewrite (raising_will _ Hw). step.
  do 2 eexists. split; [reflexivity|].
  destruct ty; simpl; reflexivity.
Qed.

End raise_compute.

(** C1: on [raise TypeError, make_value() ... from 1/0], a node the
    constructor accepts, the cause is found to raise after type, value and
    traceback slot were computed in that order, and the replacement
    evaluates the type and the cause only: the value, already evaluated, is
    missing from it. *)
Theorem raise_cause_drops_value :
  let exception_type := Sample.VariableRef "TypeError" in
  let exception_value := Sample.CallNamed "make_value" in
  let node :=
    StatementRaiseException.mk
      StatementRaiseException.STATEMENT_RAISE_EXCEPTION
      (Some exception_type) (Some exception_value) None
      (Some Sample.DivisionByZero) 1 false in
  let outcome :=
    StatementRaiseException.computeStatement node Sample.empty_collection in
  StatementRaiseException.__init__
    StatementRaiseException.STATEMENT_RAISE_EXCEPTION
    (Some exception_type) (Some exception_value) None
    (Some Sample.DivisionByZero) 1 = ok node
  /\ TraceCollection.calls (snd outcome)
     = [TraceCollection.OnExpression (Some exception_type);
        TraceCollection.OnExceptionRaiseExit BaseException;
        TraceCollection.OnExpression (Some exception_value);
        TraceCollection.OnExpression None;
        TraceCollection.OnExpression (Some Sample.DivisionByZero)]
  /\ exists result desc,
       fst outcome = Replaced (Some result) "new_raise" desc
       /\ getExpressions result
          = [exception_type; Sample.RaiseExpr "ZeroDivisionError"]
       /\ exception_value ∉ getExpressions result.
Proof.
  cbv zeta. split; [reflexivity|]. split; [reflexivity|].
  do 2 eexists. split; [reflexivity|]. split; [reflexivity|].
  cbn. intros Hin. apply list_elem_of_In in Hin. cbn in Hin.
  destruct Hin as [Hx|[Hx|[]]]; discriminate Hx.
Qed.

(** ** [StatementReraiseException.computeStatement] *)

(** C8: computing a re-raise statement records an exception exit with
    [BaseException] on the collection, by one call and with nothing else
    changed, and returns the node itself, with no change tag; the statement
    reports that it raises in any case. *)
Theorem reraise_records_exit_and_stays {E : Type}
    (self : StatementReraiseException.t) (tc : TraceCollection.t E) :
  let outcome := StatementReraiseException.computeStatement self tc in
  fst outcome = Unchanged self
  /\ Expression.exception_exits (TraceCollection.facts (snd outcome))
     = Expression.exception_exits (TraceCollection.facts tc) ++ [BaseException]
  /\ Expression.locals_usage (TraceCollection.facts (snd outcome))
     = Expression.locals_usage (TraceCollection.facts tc)
  /\ Expression.knowledge (TraceCollection.facts (snd outcome))
     = Expression.knowledge (TraceCollection.facts tc)
  /\ TraceCollection.calls (snd outcome)
     = TraceCollection.calls tc
       ++ [TraceCollection.OnExceptionRaiseExit BaseException]
  /\ StatementReraiseException.willRaiseAnyException self = true.
Proof. cbv zeta. repeat split. Qed.

(** ** [ExpressionRaiseException.computeExpressionDrop] *)
Section raise_expression_drop.
Context {E S : Type}.
Import ExpressionRaiseException.

(** The statement built from a raise expression always passes the
    constructor's assertions: its type is given. *)
Lemma asStatement_ok (self : t E) :
  asStatement self
  = ok (StatementRaiseException.mk
          StatementRaiseException.STATEMENT_RAISE_EXCEPTION_IMPLICIT
          (Some (subnode_exception_type self))
          (Some (subnode_exception_value self))
          None None (source_ref self) false).
Proof. reflexivity. Qed.

(** C7: dropping a raise expression that sits in a statement (its parent
    link is set) returns, tagged [new_raise], an implicit raise statement
    whose type and value are the expression's own children, with no
    traceback and no cause; the expression is left with its parent link
    cleared and its children as they were. *)
Theorem raise_expression_drop_demotes (self : t E) (statement : S)
    (trace_collection : TraceCollection.t E) (p : NodeRef) :
  parent self = Some p ->
  exists self' result desc,
    computeExpressionDrop self statement trace_collection
    = ok (self', Replaced (Some result) "new_raise" desc)
    /\ StatementRaiseException.kind result
       = StatementRaiseException.STATEMENT_RAISE_EXCEPTION_IMPLICIT
    /\ StatementRaiseException.subnode_exception_type result
       = Some (subnode_exception_type self)
    /\ StatementRaiseException.subnode_exception_value result
       = Some (subnode_exception_value self)
    /\ StatementRaiseException.subnode_exception_trace result = None
    /\ StatementRaiseException.subnode_exception_cause result = None
    /\ StatementRaiseException.source_ref result = source_ref self
    /\ parent self' = None
    /\ subnode_exception_type self' = subnode_exception_type self
    /\ subnode_exception_value self' = subnode_exception_value self.
Proof.
  intros Hp. unfold computeExpressionDrop. rewrite asStatement_ok.
  unfold del_parent. rewrite Hp. cbn.
  do 3 eexists. split; [reflexivity|]. cbn. repeat split.
Qed.

End raise_expression_drop.

(** [raise ValueError("boom")] as an unused expression, child of node 12. *)
Lemma raise_expression_drop_demotes_witness :
  exists self' result desc,
    ExpressionRaiseException.computeExpressionDrop
      (ExpressionRaiseException.mk (Sample.VariableRef "ValueError")
         (Sample.ConstantStr "boom") 3 (Some 12))
      (StatementExpressionOnly (Sample.RaiseExpr "ValueError"))
      Sample.empty_collection
    = ok (self', Replaced (Some result) "new_raise" desc)
    /\ StatementRaiseException.subnode_exception_type result
       = Some (Sample.VariableRef "ValueError")
    /\ ExpressionRaiseException.parent self' = None.
Proof.
  destruct (raise_expression_drop_demotes
              (ExpressionRaiseException.mk (Sample.VariableRef "ValueError")
                 (Sample.ConstantStr "boom") 3 (Some 12))
              (StatementExpressionOnly (Sample.RaiseExpr "ValueError"))
              Sample.empty_collection 12 eq_refl)
    as (self' & result & desc & Hrun & _ & Hty & _ & _ & _ & _ & Hp & _).
  exists self', result, desc. repeat split; assumption.
Defined.

(** ** [mayRaiseException] and [computeExpression] of the exception makers *)
Section make_exception.
Context {E : Type} `{!Expression.Interface E}.

Lemma make_exception_loop_true (args : list E) (c : ExceptionClass) :
  ExpressionBuiltinMakeException.mayRaiseException_loop args c = true
  <-> exists arg, arg ∈ args /\ Expression.mayRaiseException arg c = true.
Proof.
  induction args as [|arg args IH]; simpl.
  - split; [discriminate|]. intros (arg & Hin & _).
    apply elem_of_nil in Hin. destruct Hin.
  - destruct (Expression.mayRaiseException arg c) eqn:Harg.
    + split; [|reflexivity]. intros _. exists arg. split; [left|assumption].
    + rewrite IH. split.
      * intros (a & Hin & Ha). exists a. split; [right|]; assumption.
      * intros (a & Hin & Ha). apply elem_of_cons in Hin as [->|Hin].
        -- congruence.
        -- exists a. split; assumption.
Qed.

Lemma import_error_loop_true (args : list E) (c : ExceptionClass) :
  ExpressionBuiltinMakeExceptionImportError.mayRaiseException_loop args c
  = true
  <-> exists arg, arg ∈ args /\ Expression.mayRaiseException arg c = true.
Proof.
  induction args as [|arg args IH]; simpl.
  - split; [discriminate|]. intros (arg & Hin & _).
    apply elem_of_nil in Hin. destruct Hin.
  - destruct (Expression.mayRaiseException arg c) eqn:Harg.
    + split; [|reflexivity]. intros _. exists arg. split; [left|assumption].
    + rewrite IH. split.
      * intros (a & Hin & Ha). exists a. split; [right|]; assumption.
      * intros (a & Hin & Ha). apply elem_of_cons in Hin as [->|Hin].
        -- congruence.
        -- exists a. split; assumption.
Qed.

(** C9: an exception maker, and the [ImportError] maker alike, may raise a
    class exactly when one of its [args] may raise it (the [name] and
    [path] of the [ImportError] maker are not asked), and its
    [computeExpression] returns the node itself and leaves the collection
    as it was. *)
Theorem make_exception_may_raise_iff_arg
    (make : ExpressionBuiltinMakeException.t E)
    (import_error : ExpressionBuiltinMakeExceptionImportError.t E)
    (c : ExceptionClass) (tc : TraceCollection.t E) :
  (ExpressionBuiltinMakeException.mayRaiseException make c = true
   <-> exists arg,
         arg ∈ ExpressionBuiltinMakeException.subnode_args make
         /\ Expression.mayRaiseException arg c = true)
  /\ ExpressionBuiltinMakeException.computeExpression make tc
     = (Unchanged make, tc)
  /\ (ExpressionBuiltinMakeExceptionImportError.mayRaiseException
        import_error c = true
      <-> exists arg,
            arg ∈ ExpressionBuiltinMakeExceptionImportError.subnode_args
                    import_error
            /\ Expression.mayRaiseException arg c = true)
  /\ ExpressionBuiltinMakeExceptionImportError.computeExpression
       import_error tc
     = (Unchanged import_error, tc).
Proof.
  split; [apply make_exception_loop_true|].
  split; [reflexivity|].
  split; [apply import_error_loop_true|reflexivity].
Qed.

End make_exception.

(** ** [StatementLocalsDictSync.mayRaiseException] *)

(** C10: for every locals sync statement and every exception class,
    [mayRaiseException] answers false; the method is static and never asks
    the [locals_arg] child. *)
Theorem locals_sync_never_may_raise {E : Type}
    (self : StatementLocalsDictSync.t E) (exception_type : ExceptionClass) :
  StatementLocalsDictSync.mayRaiseException exception_type = false.
Proof. reflexivity. Qed.

(** A sync of [locals()] obtained from a call: the child may raise, the
    statement is reported as not raising. *)
Example locals_sync_child_may_raise :
  let self := StatementLocalsDictSync.__init__ 0 (Sample.CallNamed "locals") 5 in
  Expression.mayRaiseException
    (StatementLocalsDictSync.subnode_locals_arg self) BaseException = true
  /\ StatementLocalsDictSync.mayRaiseException BaseException = false.
Proof. split; reflexivity. Qed.

(** ** The constructor of [StatementExec] *)
Section exec_init.
Context {E : Type} `{!Expression.Interface E}.
Import StatementExec.

Lemma checkers_globals_arg :
  checkers !! "globals_arg" = Some Checkers.convertNoneConstantToNone.
Proof. unfold checkers. apply lookup_insert_eq. Qed.

Lemma checkers_locals_arg :
  checkers !! "locals_arg" = Some Checkers.convertNoneConstantToNone.
Proof.
  unfold checkers. rewrite lookup_insert_ne by discriminate.
  apply lookup_insert_eq.
Qed.

Lemma checkers_source : checkers !! "source" = None.
Proof.
  unfold checkers. do 2 (rewrite lookup_insert_ne by discriminate).
  apply lookup_empty.
Qed.

(** What the constructor stores. *)
Lemma exec_init_children (source_code : E) (globals_arg locals_arg : option E)
    (ref : SourceRef) :
  __init__ source_code globals_arg locals_arg ref
  = mk source_code
       (Checkers.convertNoneConstantToNone globals_arg)
       (Checkers.convertNoneConstantToNone locals_arg)
       ref.
Proof.
  unfold __init__, checked.
  rewrite checkers_globals_arg, checkers_locals_arg. reflexivity.
Qed.

(** A constant [None] is stored as no argument, in either slot and
    whatever the other slot holds. *)
Lemma exec_init_none_constant (e : E) :
  Expression.isExpressionConstantNoneRef e = true ->
  Checkers.convertNoneConstantToNone (Some e) = None.
Proof. intros He. unfold Checkers.convertNoneConstantToNone. now rewrite He. Qed.

(** C5: a constant-[None] literal given for [globals_arg] or for
    [locals_arg] is stored as that argument being absent, whatever the
    other argument is; so an [exec] statement constructed with such
    literals for both is the statement constructed with both absent: the
    two nodes are equal, neither has the two children, and computing them
    gives the same result. *)
Theorem exec_none_arguments_are_absent (source_code globals_none locals_none : E)
    (ref : SourceRef) :
  Expression.isExpressionConstantNoneRef globals_none = true ->
  Expression.isExpressionConstantNoneRef locals_none = true ->
  (forall locals_arg,
     __init__ source_code (Some globals_none) locals_arg ref
     = __init__ source_code None locals_arg ref)
  /\ (forall globals_arg,
        __init__ source_code globals_arg (Some locals_none) ref
        = __init__ source_code globals_arg None ref)
  /\ __init__ source_code (Some globals_none) (Some locals_none) ref
     = __init__ source_code None None ref
  /\ subnode_globals_arg
       (__init__ source_code (Some globals_none) (Some locals_none) ref)
     = None
  /\ subnode_locals_arg
       (__init__ source_code (Some globals_none) (Some locals_none) ref)
     = None
  /\ forall tc,
       computeStatement
         (__init__ source_code (Some globals_none) (Some locals_none) ref) tc
       = computeStatement (__init__ source_code None None ref) tc.
Proof.
  intros Hg Hl.
  split; [intros l; rewrite !exec_init_children;
          now rewrite (exec_init_none_constant _ Hg)|].
  split; [intros g; rewrite !exec_init_children;
          now rewrite (exec_init_none_constant _ Hl)|].
  rewrite !exec_init_children.
  rewrite (exec_init_none_constant _ Hg), (exec_init_none_constant _ Hl).
  cbn. repeat split.
Qed.

End exec_init.

(** [exec code in None, None] against [exec code]. *)
Lemma exec_none_arguments_are_absent_witness :
  StatementExec.__init__ (Sample.VariableRef "code")
    (Some Sample.ConstantNone) (Some Sample.ConstantNone) 4
  = StatementExec.__init__ (Sample.VariableRef "code") None None 4.
Proof.
  refine (proj1 (proj2 (proj2 (exec_none_arguments_are_absent
                   (Sample.VariableRef "code") Sample.ConstantNone
                   Sample.ConstantNone 4 _ _)))); reflexivity.
Defined.

(** ** [StatementExec.computeStatement] *)
Section exec_compute.
Context {E : Type} `{!Expression.Interface E}.
Import TraceCollection StatementExec.

(** The source is computed and, when it may raise, an exit recorded. *)
Definition source_step (source : E) (tc : TraceCollection.t E)
  : E * TraceCollection.t E :=
  let (source_code, tc') := onExpression source tc in
  (source_code,
   snd (exit_if (Expression.mayRaiseException source_code BaseException) tc')).

(** The same for an optional argument. *)
Definition argument_step (argument : option E) (tc : TraceCollection.t E)
  : option E * TraceCollection.t E :=
  let (computed, tc') := onExpressionAllowNone argument tc in
  (computed, snd (exit_if (may_raise computed) tc')).

(** The calls of one step: the child, then the exit if it may raise. *)
Definition step_calls (child : option E) (may : bool)
  : list (TraceCollection.Call E) :=
  OnExpression child :: (if may then [OnExceptionRaiseExit BaseException] else []).

Lemma exit_if_calls (b : bool) (tc : TraceCollection.t E) :
  calls (snd (exit_if b tc))
  = calls tc ++ (if b then [OnExceptionRaiseExit BaseException] else []).
Proof. destruct b; simpl; [reflexivity|]. now rewrite app_nil_r. Qed.

Lemma onExpression_calls (e : E) (tc : TraceCollection.t E) :
  calls (snd (onExpression e tc)) = calls tc ++ [OnExpression (Some e)].
Proof.
  unfold onExpression.
  destruct (Expression.computeExpression e (facts tc)). reflexivity.
Qed.

Lemma onExpressionAllowNone_calls (x : option E) (tc : TraceCollection.t E) :
  calls (snd (onExpressionAllowNone x tc)) = calls tc ++ [OnExpression x].
Proof.
  destruct x as [e|]; simpl; [|reflexivity].
  pose proof (onExpression_calls e tc) as Hc.
  destruct (onExpression e tc). exact Hc.
Qed.

Lemma source_step_calls (source : E) (tc : TraceCollection.t E) :
  calls (snd (source_step source tc))
  = calls tc
    ++ step_calls (Some source)
         (Expression.mayRaiseException (fst (source_step source tc))
            BaseException).
Proof.
  unfold source_step, step_calls.
  pose proof (onExpression_calls source tc) as Hc.
  destruct (onExpression source tc) as [s tc']. simpl in *.
  rewrite exit_if_calls, Hc, <- app_assoc. reflexivity.
Qed.

Lemma argument_step_calls (argument : option E) (tc : TraceCollection.t E) :
  calls (snd (argument_step argument tc))
  = calls tc
    ++ step_calls argument (may_raise (fst (argument_step argument tc))).
Proof.
  unfold argument_step, step_calls.
  pose proof (onExpressionAllowNone_calls argument tc) as Hc.
  destruct (onExpressionAllowNone argument tc) as [a tc']. simpl in *.
  rewrite exit_if_calls, Hc, <- app_assoc. reflexivity.
Qed.

(** The method, case by case, in terms of the three steps. *)
Lemma exec_computeStatement_cases (self : t E) (tc : TraceCollection.t E) :
  let s1 := source_step (subnode_source self) tc in
  let s2 := argument_step (subnode_globals_arg self) (snd s1) in
  let s3 := argument_step (subnode_locals_arg self) (snd s2) in
  if Expression.willRaiseAnyException (fst s1) then
    exists desc,
      computeStatement self tc
      = (Replaced (Some (NodeExpression (fst s1))) "new_raise" desc, snd s1)
  else if will_raise (fst s2) then
    exists desc,
      computeStatement self tc
      = (Replaced
           (Some (NodeStatement
                    (NodeMakingHelpers.makeStatementOnlyNodesFromExpressions
                       [Some (fst s1); fst s2])))
           "new_raise" desc, snd s2)
  else if will_raise (fst s3) then
    exists desc,
      computeStatement self tc
      = (Replaced
           (Some (NodeStatement
                    (NodeMakingHelpers.makeStatementOnlyNodesFromExpressions
                       [Some (fst s1); fst s2; fst s3])))
           "new_raise" desc, snd s3)
  else
    computeStatement self tc
    = (Unchanged (mk (fst s1) (fst s2) (fst s3) (source_ref self)),
       snd (onExceptionRaiseExit BaseException (snd s3))).
Proof.
  cbv zeta. unfold computeStatement, source_step, argument_step, bind.
  destruct (onExpression (subnode_source self) tc) as [s tc1]. cbn [fst snd].
  destruct (exit_if (Expression.mayRaiseException s BaseException) tc1)
    as [[] tc1'] eqn:Hx1. cbn [fst snd].
  destruct (Expression.willRaiseAnyException s); [eauto|].
  cbn [subnode_globals_arg setChild_source].
  destruct (onExpressionAllowNone (subnode_globals_arg self) tc1')
    as [g tc2]. cbn [fst snd].
  destruct (exit_if (may_raise g) tc2) as [[] tc2'] eqn:Hx2. cbn [fst snd].
  destruct (will_raise g); [eauto|].
  cbn [subnode_locals_arg setChild_globals_arg setChild_source].
  destruct (onExpressionAllowNone (subnode_locals_arg self) tc2')
    as [l tc3]. cbn [fst snd].
  destruct (exit_if (may_raise l) tc3) as [[] tc3'] eqn:Hx3. cbn [fst snd].
  destruct (will_raise l); [eauto|].
  destruct (onExceptionRaiseExit BaseException tc3') as [[] tc4] eqn:Hx4.
  cbn. destruct (Expression.getStrValue s); reflexivity.
Qed.

(** C4: the statement computes [source], then [globals_arg], then
    [locals_arg], each followed by an exit recorded when the child may
    raise.  At the first child found to raise in any case the later
    children are not computed and the replacement evaluates exactly the
    children computed so far, in that order.  When none does, one more
    exit is recorded with [BaseException] and the node itself is returned,
    its children being the computed ones. *)
Theorem exec_computes_children_in_order (self : t E)
    (tc : TraceCollection.t E) :
  let s1 := source_step (subnode_source self) tc in
  let s2 := argument_step (subnode_globals_arg self) (snd s1) in
  let s3 := argument_step (subnode_locals_arg self) (snd s2) in
  let calls1 :=
    step_calls (Some (subnode_source self))
      (Expression.mayRaiseException (fst s1) BaseException) in
  let calls2 := step_calls (subnode_globals_arg self) (may_raise (fst s2)) in
  let calls3 := step_calls (subnode_locals_arg self) (may_raise (fst s3)) in
  let outcome := computeStatement self tc in
  if Expression.willRaiseAnyException (fst s1) then
    (exists result desc,
       fst outcome = Replaced (Some result) "new_raise" desc
       /\ getNodeExpressions result = [fst s1])
    /\ snd outcome = snd s1
    /\ calls (snd outcome) = calls tc ++ calls1
  else if will_raise (fst s2) then
    (exists result desc,
       fst outcome = Replaced (Some result) "new_raise" desc
       /\ getNodeExpressions result = omap id [Some (fst s1); fst s2])
    /\ snd outcome = snd s2
    /\ calls (snd outcome) = calls tc ++ calls1 ++ calls2
  else if will_raise (fst s3) then
    (exists result desc,
       fst outcome = Replaced (Some result) "new_raise" desc
       /\ getNodeExpressions result
          = omap id [Some (fst s1); fst s2; fst s3])
    /\ snd outcome = snd s3
    /\ calls (snd outcome) = calls tc ++ calls1 ++ calls2 ++ calls3
  else
    fst outcome = Unchanged (mk (fst s1) (fst s2) (fst s3) (source_ref self))
    /\ Expression.exception_exits (facts (snd outcome))
       = Expression.exception_exits (facts (snd s3)) ++ [BaseException]
    /\ calls (snd outcome)
       = calls tc ++ calls1 ++ calls2 ++ calls3
         ++ [OnExceptionRaiseExit BaseException].
Proof.
  cbv zeta.
  pose proof (exec_computeStatement_cases self tc) as Hcases. cbv zeta in Hcases.
  pose proof (source_step_calls (subnode_source self) tc) as Hc1.
  pose proof (argument_step_calls (subnode_globals_arg self)
                (snd (source_step (subnode_source self) tc))) as Hc2.
  pose proof (argument_step_calls (subnode_locals_arg self)
                (snd (argument_step (subnode_globals_arg self)
                        (snd (source_step (subnode_source self) tc))))) as Hc3.
  set (s1 := source_step (subnode_source self) tc) in *.
  set (s2 := argument_step (subnode_globals_arg self) (snd s1)) in *.
  set (s3 := argument_step (subnode_locals_arg self) (snd s2)) in *.
  destruct (Expression.willRaiseAnyException (fst s1)).
  { destruct Hcases as [desc ->]. cbn [fst snd]. split; [|split].
    - do 2 eexists. split; reflexivity.
    - reflexivity.
    - exact Hc1. }
  destruct (will_raise (fst s2)).
  { destruct Hcases as [desc ->]. cbn [fst snd]. split; [|split].
    - do 2 eexists. split; [reflexivity|].
      apply getExpressions_makeStatementOnlyNodes.
    - reflexivity.
    - rewrite Hc2, Hc1, <- app_assoc. reflexivity. }
  destruct (will_raise (fst s3)).
  { destruct Hcases as [desc ->]. cbn [fst snd]. split; [|split].
    - do 2 eexists. split; [reflexivity|].
      apply getExpressions_makeStatementOnlyNodes.
    - reflexivity.
    - rewrite Hc3, Hc2, Hc1, <- !app_assoc. reflexivity. }
  rewrite Hcases. cbn [fst snd]. split; [reflexivity|]. split.
  - reflexivity.
  - cbn. rewrite Hc3, Hc2, Hc1, <- !app_assoc. reflexivity.
Qed.

End exec_compute.

(** ** [StatementLocalsDictSync.computeStatement] *)
Section locals_sync_compute.
Context {E : Type} `{!StatementChildHavingBase E (StatementLocalsDictSync.t E)}.
Import TraceCollection StatementLocalsDictSync.

(** C3: when computing the child leaves the statement in place, the
    statement is deleted if its variable provider is a compiled module;
    otherwise the locals usage of its scope is asked for and the statement
    is deleted if there is none; otherwise all knowledge is removed, the
    locals usage is asked for once more, after that, and the node itself is
    returned, holding the two answers. *)
Theorem locals_sync_deleted_or_forgets (self self1 : t E)
    (tc tc1 : TraceCollection.t E) :
  computeStatementSubExpressions self tc = (Unchanged self1, tc1) ->
  let scope := locals_scope self1 in
  let previous :=
    default [] (Expression.locals_usage (facts tc1) !! scope) in
  let outcome := computeStatement self tc in
  if isCompiledPythonModule (getParentVariableProvider self1) then
    outcome
    = (Replaced None "new_statements"
         "Removed sync back to locals without locals.", tc1)
  else if is_empty previous then
    outcome
    = (Replaced None "new_statements"
         "Removed sync back to locals without locals.",
       record (OnLocalsUsage scope) tc1)
  else
    fst outcome
    = Unchanged (mk (subnode_locals_arg self1) scope (Some previous)
                    (Some previous) (source_ref self1) (parent self1))
    /\ calls (snd outcome)
       = calls tc1
         ++ [OnLocalsUsage scope; RemoveAllKnowledge; OnLocalsUsage scope]
    /\ Expression.knowledge (facts (snd outcome)) = ∅
    /\ Expression.locals_usage (facts (snd outcome))
       = Expression.locals_usage (facts tc1)
    /\ Expression.exception_exits (facts (snd outcome))
       = Expression.exception_exits (facts tc1).
Proof.
  intros Hsub. cbv zeta. unfold computeStatement, bind. rewrite Hsub.
  destruct (isCompiledPythonModule (getParentVariableProvider self1));
    [reflexivity|].
  cbn.
  destruct (default [] (Expression.locals_usage (facts tc1) !! locals_scope self1))
    as [|trace traces] eqn:Hprev; cbn; [reflexivity|].
  rewrite Hprev, <- !app_assoc. cbn. repeat split.
Qed.

(** The other branch of the first test: a result that is not the node is
    handed on as it is. *)
Lemma locals_sync_hands_on_replacement (self : t E)
    (tc tc1 : TraceCollection.t E) (result : option (Node E))
    (change_tags change_desc : string) :
  computeStatementSubExpressions self tc
  = (Replaced result change_tags change_desc, tc1) ->
  computeStatement self tc = (Replaced result change_tags change_desc, tc1).
Proof.
  intros Hsub. unfold computeStatement, bind. rewrite Hsub. reflexivity.
Qed.

End locals_sync_compute.

(** A sync in function [f] whose scope 0 has two recorded traces, computed
    with some knowledge about [x]: the knowledge is gone afterwards and the
    usage was asked for before and after. *)
Lemma locals_sync_deleted_or_forgets_witness :
  let self :=
    StatementLocalsDictSync.mk (Sample.CallNamed "locals") 0 None None 5
      (Some (FunctionBody "f")) in
  let tc :=
    TraceCollection.mk
      (Expression.mkFacts [] (<[0 := [1; 2]]> ∅) (<["x" := "int"]> ∅)) [] in
  let outcome := StatementLocalsDictSync.computeStatement self tc in
  fst outcome
  = Unchanged
      (StatementLocalsDictSync.mk (Sample.CallNamed "locals") 0
         (Some [1; 2]) (Some [1; 2]) 5 (Some (FunctionBody "f")))
  /\ TraceCollection.calls (snd outcome)
     = [TraceCollection.OnExpression (Some (Sample.CallNamed "locals"));
        TraceCollection.OnLocalsUsage 0;
        TraceCollection.RemoveAllKnowledge;
        TraceCollection.OnLocalsUsage 0]
  /\ Expression.knowledge (TraceCollection.facts (snd outcome)) = ∅.
Proof.
  cbv zeta.
  pose proof
    (locals_sync_deleted_or_forgets
       (StatementLocalsDictSync.mk (Sample.CallNamed "locals") 0 None None 5
          (Some (FunctionBody "f")))
       (StatementLocalsDictSync.mk (Sample.CallNamed "locals") 0 None None 5
          (Some (FunctionBody "f")))
       (TraceCollection.mk
          (Expression.mkFacts [] (<[0 := [1; 2]]> ∅) (<["x" := "int"]> ∅)) [])
       (TraceCollection.mk
          (Expression.mkFacts [] (<[0 := [1; 2]]> ∅) (<["x" := "int"]> ∅))
          [TraceCollection.OnExpression (Some (Sample.CallNamed "locals"))])
       eq_refl) as Hthm.
  cbv zeta in Hthm.
  destruct Hthm as (Hfst & Hcalls & Hknow & _).
  split; [exact Hfst|]. split; [exact Hcalls | exact Hknow].
Defined.

(** ** [computeExpressionDrop] of [exec] and [execfile] *)
Section exec_drop.
Context {E S : Type} `{!Expression.Interface E}.

(** The constructor of the [exec] expression assigns [in_early_closure]
    and no other slot. *)
Lemma exec_getattr_in_early_closure (in_early_closure : bool) (source_code : E)
    (globals_arg locals_arg : option E) (ref : SourceRef) :
  ExpressionBuiltinExec.getattr
    (ExpressionBuiltinExec.__init__ in_early_closure source_code globals_arg
       locals_arg ref) "in_early_closure"
  = ok in_early_closure.
Proof.
  unfold ExpressionBuiltinExec.getattr, ExpressionBuiltinExec.__init__. cbn.
  now rewrite lookup_insert_eq.
Qed.

Lemma exec_getattr_early_closure (in_early_closure : bool) (source_code : E)
    (globals_arg locals_arg : option E) (ref : SourceRef) :
  ExpressionBuiltinExec.getattr
    (ExpressionBuiltinExec.__init__ in_early_closure source_code globals_arg
       locals_arg ref) "early_closure"
  = raise (AttributeError "early_closure").
Proof.
  unfold ExpressionBuiltinExec.getattr, ExpressionBuiltinExec.__init__. cbn.
  rewrite lookup_insert_ne by discriminate. now rewrite lookup_empty.
Qed.

(** C2: dropping the result of an [exec] expression, constructed with
    either value of [in_early_closure] and sitting in a statement, reads the
    attribute [early_closure], which no slot holds: the call ends in an
    [AttributeError] and returns neither a statement nor the enclosing
    statement. *)
Theorem exec_drop_reads_missing_attribute (in_early_closure : bool)
    (source_code : E) (globals_arg locals_arg : option E) (ref : SourceRef)
    (p : NodeRef) (statement : S) (trace_collection : TraceCollection.t E) :
  ExpressionBuiltinExec.computeExpressionDrop
    (ExpressionBuiltinExec.setParent
       (ExpressionBuiltinExec.__init__ in_early_closure source_code
          globals_arg locals_arg ref) p)
    statement trace_collection
  = raise (AttributeError "early_closure").
Proof.
  unfold ExpressionBuiltinExec.computeExpressionDrop.
  change (ExpressionBuiltinExec.getattr
            (ExpressionBuiltinExec.setParent
               (ExpressionBuiltinExec.__init__ in_early_closure source_code
                  globals_arg locals_arg ref) p) "early_closure")
    with (ExpressionBuiltinExec.getattr
            (ExpressionBuiltinExec.__init__ in_early_closure source_code
               globals_arg locals_arg ref) "early_closure").
  rewrite exec_getattr_early_closure. reflexivity.
Qed.

(** The sibling reads the attribute its constructor assigned: in a class
    body the [execfile] expression becomes an [exec] statement with the
    same children and is detached, elsewhere the enclosing statement is
    returned. *)
Lemma execfile_drop_by_flag (in_class_body : bool) (source_code : E)
    (globals_arg locals_arg : option E) (ref : SourceRef) (p : NodeRef)
    (statement : S) (trace_collection : TraceCollection.t E) :
  let self :=
    ExpressionBuiltinExecfile.setParent
      (ExpressionBuiltinExecfile.__init__ in_class_body source_code
         globals_arg locals_arg ref) p in
  ExpressionBuiltinExecfile.computeExpressionDrop self statement
    trace_collection
  = if in_class_body then
      ok (ExpressionBuiltinExecfile.mk source_code globals_arg locals_arg ref
            None (ExpressionBuiltinExecfile.slots self),
          Replaced
            (Some (StatementExec.__init__ source_code globals_arg locals_arg
                     ref))
            "new_statements"
            "Changed 'execfile' with unused result to 'exec' on class level.")
    else ok (self, Unchanged statement).
Proof.
  cbv zeta. unfold ExpressionBuiltinExecfile.computeExpressionDrop,
    ExpressionBuiltinExecfile.getattr. cbn.
  rewrite lookup_insert_eq. cbn. destruct in_class_body; reflexivity.
Qed.

End exec_drop.

(** ** Scenarios *)

(** [raise ValueError, 1/0]: the value is found to raise, the statement
    becomes the evaluation of the type and of the value. *)
Example scenario_raise_value_raises :
  let node :=
    StatementRaiseException.mk
      StatementRaiseException.STATEMENT_RAISE_EXCEPTION
      (Some (Sample.VariableRef "ValueError")) (Some Sample.DivisionByZero)
      None None 2 false in
  fst (StatementRaiseException.computeStatement node Sample.empty_collection)
  = Replaced
      (Some (StatementsSequence
               [StatementExpressionOnly (Sample.VariableRef "ValueError");
                StatementExpressionOnly (Sample.RaiseExpr "ZeroDivisionError")]))
      "new_raise"
      "Explicit raise already raises implicitly building exception value.".
Proof. reflexivity. Qed.

(** [raise ValueError] with nothing raising on the way stays, the exit
    being recorded. *)
Example scenario_raise_stays :
  let node :=
    StatementRaiseException.mk
      StatementRaiseException.STATEMENT_RAISE_EXCEPTION
      (Some (Sample.VariableRef "ValueError")) None None None 2 false in
  let outcome :=
    StatementRaiseException.computeStatement node Sample.empty_collection in
  fst outcome = Unchanged node
  /\ Expression.exception_exits (TraceCollection.facts (snd outcome))
     = [BaseException].
Proof. split; reflexivity. Qed.

(** [exec code in g] with [1/0] for the locals: source, globals and locals
    are computed, and the three make the replacement. *)
Example scenario_exec_locals_raise :
  let node :=
    StatementExec.__init__ (Sample.VariableRef "code")
      (Some (Sample.VariableRef "g")) (Some Sample.DivisionByZero) 9 in
  fst (StatementExec.computeStatement node Sample.empty_collection)
  = Replaced
      (Some (NodeStatement
               (StatementsSequence
                  [StatementExpressionOnly (Sample.VariableRef "code");
                   StatementExpressionOnly (Sample.VariableRef "g");
                   StatementExpressionOnly
                     (Sample.RaiseExpr "ZeroDivisionError")])))
      "new_raise"
      "Exec statement raises implicitly when determining locals argument.".
Proof.
  cbv zeta. rewrite exec_init_children. reflexivity.
Qed.

(** [exec "pass"]: nothing raises, a possible exit is recorded and the
    statement stays. *)
Example scenario_exec_stays :
  let node := StatementExec.mk (Sample.ConstantStr "pass") None None 9 in
  let outcome := StatementExec.computeStatement node Sample.empty_collection in
  fst outcome = Unchanged node
  /\ Expression.exception_exits (TraceCollection.facts (snd outcome))
     = [BaseException]
  /\ TraceCollection.calls (snd outcome)
     = [TraceCollection.OnExpression (Some (Sample.ConstantStr "pass"));
        TraceCollection.OnExpression None;
        TraceCollection.OnExpression None;
        TraceCollection.OnExceptionRaiseExit BaseException].
Proof. repeat split. Qed.

(** A locals sync at module level is deleted; in a function whose scope has
    no recorded usage it is deleted after the one query. *)
Example scenario_locals_sync_deleted :
  let at_module :=
    StatementLocalsDictSync.mk (Sample.CallNamed "locals") 0 None None 5
      (Some (CompiledPythonModule "__main__")) in
  let in_function :=
    StatementLocalsDictSync.mk (Sample.CallNamed "locals") 0 None None 5
      (Some (FunctionBody "f")) in
  fst (StatementLocalsDictSync.computeStatement at_module
         Sample.empty_collection)
  = Replaced None "new_statements"
      "Removed sync back to locals without locals."
  /\ fst (StatementLocalsDictSync.computeStatement in_function
            Sample.empty_collection)
     = Replaced None "new_statements"
         "Removed sync back to locals without locals."
  /\ TraceCollection.calls
       (snd (StatementLocalsDictSync.computeStatement in_function
               Sample.empty_collection))
     = [TraceCollection.OnExpression (Some (Sample.CallNamed "locals"));
        TraceCollection.OnLocalsUsage 0].
Proof. repeat split. Qed.

(** * Further properties of the node classes *)

(** ** The raise statement, child by child *)
Section raise_children.
Context {E : Type} `{!Expression.Interface E}.
Import TraceCollection StatementRaiseException.

(** [x is not None and x.willRaiseAnyException()] as a truth value. *)
Definition raises (x : option E) : bool :=
  match raising x with Some _ => true | None => false end.

Lemma raises_false (x : option E) : raises x = false -> raising x = None.
Proof. unfold raises. destruct (raising x); [discriminate|reflexivity]. Qed.

Lemma raises_true (x : option E) :
  raises x = true -> exists e, x = Some e /\ raising x = Some e.
Proof.
  unfold raises. destruct (raising x) as [e|] eqn:Hr; [|discriminate].
  intros _. exists e. apply raising_Some in Hr as [-> Hw]. auto.
Qed.

Ltac run := cbn -[raising onExpressionAllowNone].
Ltac run_in H := cbn -[raising onExpressionAllowNone] in H.

(** The whole method in terms of the four child computations. *)
Lemma raise_computeStatement_cases (self : t E) (tc : TraceCollection.t E) :
  let s1 := onExpressionAllowNone (subnode_exception_type self) tc in
  let s2 := onExpressionAllowNone (subnode_exception_value self)
              (after_type (snd s1)) in
  let s3 := onExpressionAllowNone (subnode_exception_trace self) (snd s2) in
  let s4 := onExpressionAllowNone (subnode_exception_cause self) (snd s3) in
  if raises (fst s1) then
    exists result desc,
      computeStatement self tc
      = (Replaced (Some result) "new_raise" desc, after_type (snd s1))
      /\ getExpressions result = omap id [fst s1]
  else if raises (fst s2) then
    exists result desc,
      computeStatement self tc
      = (Replaced (Some result) "new_raise" desc, snd s2)
      /\ getExpressions result = omap id [fst s1; fst s2]
  else if raises (fst s3) then
    exists result desc,
      computeStatement self tc
      = (Replaced (Some result) "new_raise" desc, snd s3)
      /\ getExpressions result = omap id [fst s1; fst s2; fst s3]
  else if raises (fst s4) then
    exists result desc,
      computeStatement self tc
      = (Replaced (Some result) "new_raise" desc, snd s4)
  else
    computeStatement self tc
    = (Unchanged (mk (kind self) (fst s1) (fst s2) (fst s3) (fst s4)
                     (source_ref self) (reraise_finally self)),
       snd s4).
Proof.
  cbv zeta.
  destruct (onExpressionAllowNone (subnode_exception_type self) tc)
    as [ty tc1] eqn:H1. cbn [fst snd].
  destruct (onExpressionAllowNone (subnode_exception_value self)
              (after_type tc1)) as [v tc2] eqn:H2. cbn [fst snd].
  destruct (onExpressionAllowNone (subnode_exception_trace self) tc2)
    as [tr tc3] eqn:H3. cbn [fst snd].
  destruct (onExpressionAllowNone (subnode_exception_cause self) tc3)
    as [c tc4] eqn:H4. cbn [fst snd].
  destruct (raises ty) eqn:R1.
  { apply raises_true in R1 as (e & -> & Hr). apply raising_Some in Hr as [_ Hw].
    destruct (raise_type_prefix self tc tc1 e H1 Hw) as (r & d & Hrun & Hex).
    exists r, d. split; [exact Hrun | exact Hex]. }
  apply raises_false in R1.
  destruct (raises v) eqn:R2.
  { apply raises_true in R2 as (e & -> & Hr). apply raising_Some in Hr as [_ Hw].
    exact (raise_value_prefix self tc tc1 tc2 ty e H1 R1 H2 Hw). }
  apply raises_false in R2.
  destruct (raises tr) eqn:R3.
  { apply raises_true in R3 as (e & -> & Hr). apply raising_Some in Hr as [_ Hw].
    exact (raise_trace_prefix self tc tc1 tc2 tc3 ty v e H1 R1 H2 R2 H3 Hw). }
  apply raises_false in R3.
  destruct (raises c) eqn:R4.
  { apply raises_true in R4 as (e & -> & Hr). apply raising_Some in Hr as [_ Hw].
    destruct (raise_cause_replacement self tc tc1 tc2 tc3 tc4 ty v tr e
                H1 R1 H2 R2 H3 R3 H4 Hw) as (r & d & Hrun & _).
    exists r, d. exact Hrun. }
  apply raises_false in R4.
  unfold computeStatement, bind. rewrite H1. run. rewrite R1. run.
  unfold after_type in H2. run_in H2. rewrite H2. run. rewrite R2. run.
  rewrite H3. run. rewrite R3. run. rewrite H4. run. rewrite R4.
  reflexivity.
Qed.

(** The calls of the four child computations, in order. *)
Lemma raise_children_calls (self : t E) (tc : TraceCollection.t E) :
  let s1 := onExpressionAllowNone (subnode_exception_type self) tc in
  let s2 := onExpressionAllowNone (subnode_exception_value self)
              (after_type (snd s1)) in
  let s3 := onExpressionAllowNone (subnode_exception_trace self) (snd s2) in
  let s4 := onExpressionAllowNone (subnode_exception_cause self) (snd s3) in
  calls (after_type (snd s1))
  = calls tc ++ [OnExpression (subnode_exception_type self);
                 OnExceptionRaiseExit BaseException]
  /\ calls (snd s2)
     = calls tc ++ [OnExpression (subnode_exception_type self);
                    OnExceptionRaiseExit BaseException;
                    OnExpression (subnode_exception_value self)]
  /\ calls (snd s3)
     = calls tc ++ [OnExpression (subnode_exception_type self);
                    OnExceptionRaiseExit BaseException;
                    OnExpression (subnode_exception_value self);
                    OnExpression (subnode_exception_trace self)]
  /\ calls (snd s4)
     = calls tc ++ [OnExpression (subnode_exception_type self);
                    OnExceptionRaiseExit BaseException;
                    OnExpression (subnode_exception_value self);
                    OnExpression (subnode_exception_trace self);
                    OnExpression (subnode_exception_cause self)].
Proof.
  cbv zeta.
  assert (Hexit : forall tc0 : TraceCollection.t E,
             calls (after_type tc0)
             = calls tc0 ++ [OnExceptionRaiseExit BaseException])
    by reflexivity.
  rewrite !onExpressionAllowNone_calls, Hexit, !onExpressionAllowNone_calls.
  rewrite <- !app_assoc. cbn. repeat split.
Qed.

End raise_children.

Section raise_children_properties.
Context {E : Type} `{!Expression.Interface E}.
Import TraceCollection StatementRaiseException.

(** When the type, the value or the traceback is the first child found to
    raise, the replacement evaluates exactly the children computed so far,
    in order, and the calls made on the collection stop with that child:
    no later child is computed.  In every other case all four children are
    computed, type first, with the one exit recorded right after the
    type. *)
Theorem raise_replacement_is_computed_prefix (self : t E)
    (tc : TraceCollection.t E) :
  let s1 := onExpressionAllowNone (subnode_exception_type self) tc in
  let s2 := onExpressionAllowNone (subnode_exception_value self)
              (after_type (snd s1)) in
  let s3 := onExpressionAllowNone (subnode_exception_trace self) (snd s2) in
  let outcome := computeStatement self tc in
  let type_calls :=
    [OnExpression (subnode_exception_type self);
     OnExceptionRaiseExit BaseException] in
  if raises (fst s1) then
    (exists result desc,
       fst outcome = Replaced (Some result) "new_raise" desc
       /\ getExpressions result = omap id [fst s1])
    /\ calls (snd outcome) = calls tc ++ type_calls
  else if raises (fst s2) then
    (exists result desc,
       fst outcome = Replaced (Some result) "new_raise" desc
       /\ getExpressions result = omap id [fst s1; fst s2])
    /\ calls (snd outcome)
       = calls tc ++ type_calls
         ++ [OnExpression (subnode_exception_value self)]
  else if raises (fst s3) then
    (exists result desc,
       fst outcome = Replaced (Some result) "new_raise" desc
       /\ getExpressions result = omap id [fst s1; fst s2; fst s3])
    /\ calls (snd outcome)
       = calls tc ++ type_calls
         ++ [OnExpression (subnode_exception_value self);
             OnExpression (subnode_exception_trace self)]
  else
    calls (snd outcome)
    = calls tc ++ type_calls
      ++ [OnExpression (subnode_exception_value self);
          OnExpression (subnode_exception_trace self);
          OnExpression (subnode_exception_cause self)].
Proof.
  cbv zeta.
  pose proof (raise_computeStatement_cases self tc) as Hcases.
  pose proof (raise_children_calls self tc) as (Hc1 & Hc2 & Hc3 & Hc4).
  cbv zeta in Hcases, Hc1, Hc2, Hc3, Hc4.
  set (s1 := onExpressionAllowNone (subnode_exception_type self) tc) in *.
  set (s2 := onExpressionAllowNone (subnode_exception_value self)
               (after_type (snd s1))) in *.
  set (s3 := onExpressionAllowNone (subnode_exception_trace self) (snd s2))
    in *.
  set (s4 := onExpressionAllowNone (subnode_exception_cause self) (snd s3))
    in *.
  destruct (raises (fst s1)).
  { destruct Hcases as (r & d & -> & Hex). cbn [fst snd]. split; [eauto|].
    exact Hc1. }
  destruct (raises (fst s2)).
  { destruct Hcases as (r & d & -> & Hex). cbn [fst snd]. split; [eauto|].
    exact Hc2. }
  destruct (raises (fst s3)).
  { destruct Hcases as (r & d & -> & Hex). cbn [fst snd]. split; [eauto|].
    exact Hc3. }
  destruct (raises (fst s4)).
  { destruct Hcases as (r & d & ->). cbn [fst snd]. exact Hc4. }
  rewrite Hcases. cbn [fst snd]. exact Hc4.
Qed.

(** Computing an optional child keeps it present or absent. *)
Lemma onExpressionAllowNone_presence (x : option E) (tc : TraceCollection.t E) :
  fst (onExpressionAllowNone x tc) = None <-> x = None.
Proof.
  destruct x as [e|]; cbn; [|tauto].
  destruct (onExpression e tc). cbn. split; discriminate.
Qed.

(** A raise statement that stays has had all four children computed, none
    of which raises for sure; it keeps its kind, source reference and flag,
    every child stays present or absent as it was, and so the nesting the
    constructor checked still holds. *)
Theorem raise_kept_keeps_shape (self self' : t E)
    (tc tc' : TraceCollection.t E) :
  computeStatement self tc = (Unchanged self', tc') ->
  kind self' = kind self
  /\ source_ref self' = source_ref self
  /\ reraise_finally self' = reraise_finally self
  /\ (subnode_exception_type self' = None
      <-> subnode_exception_type self = None)
  /\ (subnode_exception_value self' = None
      <-> subnode_exception_value self = None)
  /\ (subnode_exception_trace self' = None
      <-> subnode_exception_trace self = None)
  /\ (subnode_exception_cause self' = None
      <-> subnode_exception_cause self = None)
  /\ raises (subnode_exception_type self') = false
  /\ raises (subnode_exception_value self') = false
  /\ raises (subnode_exception_trace self') = false
  /\ raises (subnode_exception_cause self') = false
  /\ (well_nested self -> well_nested self').
Proof.
  intros Hrun.
  pose proof (raise_computeStatement_cases self tc) as Hcases.
  cbv zeta in Hcases.
  set (s1 := onExpressionAllowNone (subnode_exception_type self) tc) in *.
  set (s2 := onExpressionAllowNone (subnode_exception_value self)
               (after_type (snd s1))) in *.
  set (s3 := onExpressionAllowNone (subnode_exception_trace self) (snd s2))
    in *.
  set (s4 := onExpressionAllowNone (subnode_exception_cause self) (snd s3))
    in *.
  destruct (raises (fst s1)) eqn:R1;
    [destruct Hcases as (? & ? & Hc & _); congruence|].
  destruct (raises (fst s2)) eqn:R2;
    [destruct Hcases as (? & ? & Hc & _); congruence|].
  destruct (raises (fst s3)) eqn:R3;
    [destruct Hcases as (? & ? & Hc & _); congruence|].
  destruct (raises (fst s4)) eqn:R4;
    [destruct Hcases as (? & ? & Hc); congruence|].
  rewrite Hcases in Hrun. injection Hrun as <- <-. cbn.
  pose proof (onExpressionAllowNone_presence (subnode_exception_type self) tc)
    as P1.
  pose proof (onExpressionAllowNone_presence (subnode_exception_value self)
                (after_type (snd s1))) as P2.
  pose proof (onExpressionAllowNone_presence (subnode_exception_trace self)
                (snd s2)) as P3.
  pose proof (onExpressionAllowNone_presence (subnode_exception_cause self)
                (snd s3)) as P4.
  fold s1 in P1. fold s2 in P2. fold s3 in P3. fold s4 in P4.
  repeat (split; [first [reflexivity | assumption]|]).
  intros [Hn1 Hn2]. split; cbn; intros Hx.
  - apply P2, Hn1, P1, Hx.
  - apply P3, Hn2, P2, Hx.
Qed.

End raise_children_properties.

(** [raise ValueError, make_value()] stays, nested as before. *)
Lemma raise_kept_keeps_shape_witness :
  let node :=
    StatementRaiseException.mk
      StatementRaiseException.STATEMENT_RAISE_EXCEPTION
      (Some (Sample.VariableRef "ValueError"))
      (Some (Sample.CallNamed "make_value")) None None 2 false in
  StatementRaiseException.well_nested node
  /\ raises (StatementRaiseException.subnode_exception_value node) = false.
Proof.
  cbv zeta.
  pose proof
    (raise_kept_keeps_shape
       (StatementRaiseException.mk
          StatementRaiseException.STATEMENT_RAISE_EXCEPTION
          (Some (Sample.VariableRef "ValueError"))
          (Some (Sample.CallNamed "make_value")) None None 2 false)
       _ Sample.empty_collection _ eq_refl) as Hthm.
  destruct Hthm as (_ & _ & _ & _ & _ & _ & _ & _ & Hv & _ & _ & Hn).
  split; [apply Hn; split; cbn; congruence | exact Hv].
Defined.

(** ** Dropping a detached expression *)
Section detached_drop.
Context {E S : Type} `{!Expression.Interface E}.

(** [del self.parent] needs the link to be set.  A raise expression
    without a parent link cannot be dropped: the call ends in an
    [AttributeError] for [parent].  So does the drop of a detached
    [execfile] expression in a class body; outside a class body the link is
    not touched and the enclosing statement is returned all the same. *)
Theorem drop_of_detached_expression (raise_expression : ExpressionRaiseException.t E)
    (in_class_body : bool) (source_code : E) (globals_arg locals_arg : option E)
    (ref : SourceRef) (statement : S) (trace_collection : TraceCollection.t E) :
  ExpressionRaiseException.parent raise_expression = None ->
  let execfile :=
    ExpressionBuiltinExecfile.__init__ in_class_body source_code globals_arg
      locals_arg ref in
  ExpressionRaiseException.computeExpressionDrop raise_expression statement
    trace_collection
  = raise (AttributeError "parent")
  /\ ExpressionBuiltinExecfile.computeExpressionDrop execfile statement
       trace_collection
     = if in_class_body then raise (AttributeError "parent")
       else ok (execfile, Unchanged statement).
Proof.
  intros Hp. cbv zeta. split.
  - unfold ExpressionRaiseException.computeExpressionDrop.
    rewrite asStatement_ok. unfold ExpressionRaiseException.del_parent.
    rewrite Hp. reflexivity.
  - unfold ExpressionBuiltinExecfile.computeExpressionDrop,
      ExpressionBuiltinExecfile.getattr. cbn.
    rewrite lookup_insert_eq. cbn. destruct in_class_body; reflexivity.
Qed.

End detached_drop.

(** [raise ValueError("boom")] as an expression no statement holds. *)
Lemma drop_of_detached_expression_witness :
  ExpressionRaiseException.computeExpressionDrop
    (ExpressionRaiseException.mk (Sample.VariableRef "ValueError")
       (Sample.ConstantStr "boom") 3 None)
    (StatementExpressionOnly (Sample.RaiseExpr "ValueError"))
    Sample.empty_collection
  = raise (AttributeError "parent").
Proof.
  refine (proj1 (drop_of_detached_expression
                   (ExpressionRaiseException.mk (Sample.VariableRef "ValueError")
                      (Sample.ConstantStr "boom") 3 None)
                   true (Sample.ConstantStr "setup.py") None None 3
                   (StatementExpressionOnly (Sample.RaiseExpr "ValueError"))
                   Sample.empty_collection _)).
  reflexivity.
Defined.

(** ** A locals sync whose child replaces it *)

(** A base whose child computation replaces the statement by the evaluation
    of a child that raises for sure. *)
Definition raising_child_base
  : StatementChildHavingBase Sample.expr (StatementLocalsDictSync.t Sample.expr) := {|
  computeStatementSubExpressions self :=
    let! locals_arg :=
      TraceCollection.onExpression
        (StatementLocalsDictSync.subnode_locals_arg self) in
    if Expression.willRaiseAnyException locals_arg then
      TraceCollection.ret
        (Replaced (Some (NodeStatement (StatementExpressionOnly locals_arg)))
           "new_raise" "child raises")
    else
      TraceCollection.ret
        (Unchanged
           (StatementLocalsDictSync.mk locals_arg
              (StatementLocalsDictSync.locals_scope self)
              (StatementLocalsDictSync.previous_traces self)
              (StatementLocalsDictSync.variable_traces self)
              (StatementLocalsDictSync.source_ref self)
              (StatementLocalsDictSync.parent self)));
  getParentVariableProvider self :=
    default (CompiledPythonModule "__main__")
            (StatementLocalsDictSync.parent self);
|}.

(** A sync of [1/0] in a function with recorded usage and knowledge: the
    replacement is handed on, the usage is not asked for and the knowledge
    stays. *)
Lemma locals_sync_hands_on_replacement_witness :
  let self :=
    StatementLocalsDictSync.mk Sample.DivisionByZero 0 None None 5
      (Some (FunctionBody "f")) in
  let tc :=
    TraceCollection.mk
      (Expression.mkFacts [] (<[0 := [1; 2]]> ∅) (<["x" := "int"]> ∅)) [] in
  let outcome :=
    @StatementLocalsDictSync.computeStatement _ raising_child_base self tc in
  fst outcome
  = Replaced
      (Some (NodeStatement
               (StatementExpressionOnly (Sample.RaiseExpr "ZeroDivisionError"))))
      "new_raise" "child raises"
  /\ TraceCollection.calls (snd outcome)
     = [TraceCollection.OnExpression (Some Sample.DivisionByZero)]
  /\ Expression.knowledge (TraceCollection.facts (snd outcome))
     = <["x" := "int"]> ∅.
Proof.
  cbv zeta.
  rewrite (@locals_sync_hands_on_replacement _ raising_child_base
             (StatementLocalsDictSync.mk Sample.DivisionByZero 0 None None 5
                (Some (FunctionBody "f")))
             (TraceCollection.mk
                (Expression.mkFacts [] (<[0 := [1; 2]]> ∅)
                   (<["x" := "int"]> ∅)) [])
             _ _ _ _ eq_refl).
  repeat split.
Defined.

(** ** The arguments of an exception maker *)
Section make_exception_args.
Context {E : Type} `{!Expression.Interface E}.
Import ExpressionBuiltinMakeException.

(** An exception made without arguments may raise nothing, and the answer
    for arguments put one after the other is the disjunction of the
    answers: neither the order of the arguments nor their grouping
    matters. *)
Theorem make_exception_args_disjunction (name : string) (ref : SourceRef)
    (args1 args2 : list E) (c : ExceptionClass) :
  mayRaiseException (__init__ name [] ref) c = false
  /\ mayRaiseException (__init__ name (args1 ++ args2) ref) c
     = mayRaiseException (__init__ name args1 ref) c
       || mayRaiseException (__init__ name args2 ref) c
  /\ mayRaiseException (__init__ name (args2 ++ args1) ref) c
     = mayRaiseException (__init__ name (args1 ++ args2) ref) c.
Proof.
  assert (Happ : forall l1 l2,
             mayRaiseException_loop (l1 ++ l2) c
             = mayRaiseException_loop l1 c || mayRaiseException_loop l2 c).
  { induction l1 as [|a l1 IH]; intros l2; cbn; [reflexivity|].
    destruct (Expression.mayRaiseException a c); [reflexivity|apply IH]. }
  unfold mayRaiseException, __init__. cbn.
  split; [reflexivity|]. split; [apply Happ|].
  rewrite !Happ. apply orb_comm.
Qed.

End make_exception_args.

(** * [nuitka/codegen/HelperDefinitions.py]

    The names of the specialized helpers, built and taken apart as
    strings. *)

(** ** Python's [str] methods, on ASCII strings *)
Module PyStr.

(** [s.startswith(p)]. *)
Fixpoint startswith (p s : string) : bool :=
  match p, s with
  | EmptyString, _ => true
  | String a p', String b s' => if Ascii.eqb a b then startswith p' s' else false
  | String _ _, EmptyString => false
  end.

(** [sub in s]. *)
Fixpoint contains (sub s : string) : bool :=
  if startswith sub s then true
  else match s with
       | EmptyString => false
       | String _ s' => contains sub s'
       end.

(** [s.split(sep)] for a separator of one character: always at least one
    part, the parts holding no separator. *)
Fixpoint split (sep : Ascii.ascii) (s : string) : list string :=
  match s with
  | EmptyString => [EmptyString]
  | String c s' =>
    if Ascii.eqb c sep then EmptyString :: split sep s'
    else match split sep s' with
         | [] => [String c EmptyString]
         | part :: parts => String c part :: parts
         end
  end.

(** [sep.join(parts)] for a separator of one character. *)
Fixpoint join (sep : Ascii.ascii) (parts : list string) : string :=
  match parts with
  | [] => EmptyString
  | [part] => part
  | part :: parts' => part +:+ String sep (join sep parts')
  end.

(** [s.replace(old, new)] for a non-empty [old]: occurrences are replaced
    from the left, without overlap.  [skip] counts the characters of a
    replaced occurrence still to be passed over. *)
Fixpoint replace_from (skip : nat) (old new s : string) : string :=
  match s with
  | EmptyString => EmptyString
  | String c s' =>
    match skip with
    | S skip' => replace_from skip' old new s'
    | O =>
      if startswith old s
      then new +:+ replace_from (String.length old - 1) old new s'
      else String c (replace_from 0 old new s')
    end
  end.

Definition replace (old new s : string) : string := replace_from 0 old new s.

(** [c.upper()] and [c.lower()] of an ASCII character. *)
Definition upper_char (c : Ascii.ascii) : Ascii.ascii :=
  let n := Ascii.nat_of_ascii c in
  if (97 <=? n)%nat && (n <=? 122)%nat then Ascii.ascii_of_nat (n - 32) else c.

Definition lower_char (c : Ascii.ascii) : Ascii.ascii :=
  let n := Ascii.nat_of_ascii c in
  if (65 <=? n)%nat && (n <=? 90)%nat then Ascii.ascii_of_nat (n + 32) else c.

Fixpoint upper (s : string) : string :=
  match s with
  | EmptyString => EmptyString
  | String c s' => String (upper_char c) (upper s')
  end.

Fixpoint lower (s : string) : string :=
  match s with
  | EmptyString => EmptyString
  | String c s' => String (lower_char c) (lower s')
  end.

End PyStr.

(** What can end a call of this file, or its import: a failed assertion,
    an index out of range, a missing key, a value of the wrong type. *)
Inductive PyError : Type :=
  | NodeFault (fault : Fault)
  | IndexError
  | KeyError (key : string)
  | TypeError.

(** [parts[i]]. *)
Definition item {A} (parts : list A) (i : nat) : PyError + A :=
  match parts !! i with
  | Some part => inr part
  | None => inl IndexError
  end.

Notation "'try!' x ':=' m 'in' k" :=
  (match m return (PyError + _) with inl e => inl e | inr x => k end)
  (at level 10, x pattern, m at level 100, k at level 200).

(** Modelled from the spec: [OrderedSet] and [buildOrderedSet] of
    nuitka/containers/OrderedSets.py, whose source is missing.  The file
    that uses them says of its sets that they are ordered: a set keeps its
    values in the order they were first added. *)
Module OrderedSet.

Definition add (s : list string) (x : string) : list string :=
  if bool_decide (x ∈ s) then s else s ++ [x].

(** [OrderedSet(values)]. *)
Definition of_values (values : list string) : list string :=
  foldl add [] values.

(** [buildOrderedSet] of some producers: their values one after the
    other. *)
Definition buildOrderedSet (producers : list (list string)) : list string :=
  of_values (concat producers).

End OrderedSet.

Module HelperDefinitions.
Import Stdlib.Strings.Ascii PyStr.

(** [target_code, left_code, right_code] of a helper name; [None] is the
    target of an in-place helper. *)
Definition parseTypesFromHelper (helper_name : string)
  : PyError + (option string * string * string) :=
  if negb (contains "_INPLACE" helper_name) then
    try! target_code := item (split "_"%char helper_name) 3 in
    try! left_code := item (split "_"%char helper_name) 4 in
    try! right_code := item (split "_"%char helper_name) 5 in
    inr (Some target_code, left_code, right_code)
  else
    try! left_code := item (split "_"%char helper_name) 3 in
    try! right_code := item (split "_"%char helper_name) 4 in
    inr (None, left_code, right_code).

(** ["CLONG" not in parseTypesFromHelper(helper_name)], on the tuple. *)
Definition no_CLONG (types : option string * string * string) : bool :=
  let '(target_code, left_code, right_code) := types in
  negb (bool_decide (target_code = Some "CLONG")
        || String.eqb left_code "CLONG"
        || String.eqb right_code "CLONG").

(** The generator of [deriveInplaceFromBinaryOperations], name by name. *)
Fixpoint deriveInplace_names (operation : string) (operations : list string)
  : PyError + list string :=
  match operations with
  | [] => inr []
  | helper_name :: rest =>
    try! types := parseTypesFromHelper helper_name in
    if bool_decide (fst (fst types) = Some "OBJECT") then
      try! types' := parseTypesFromHelper helper_name in
      if no_CLONG types' then
        let name :=
          replace (operation +:+ "_OBJECT") operation helper_name
          +:+ "_INPLACE" in
        try! names := deriveInplace_names operation rest in
        inr (name :: names)
      else deriveInplace_names operation rest
    else deriveInplace_names operation rest
  end.

Definition deriveInplaceFromBinaryOperations
    (operations_set : option (list string))
  : PyError + option (list string) :=
  match operations_set with
  | None | Some [] => inr None
  | Some (first :: rest) =>
    try! operation := item (split "_"%char first) 2 in
    try! names := deriveInplace_names operation (first :: rest) in
    inr (Some (OrderedSet.of_values names))
  end.

Definition _makeTypeOpsNbool (op_code type_name : string) : list string :=
  [ "BINARY_OPERATION_" +:+ op_code +:+ "_NBOOL_" +:+ type_name +:+ "_"
      +:+ type_name;
    "BINARY_OPERATION_" +:+ op_code +:+ "_NBOOL_OBJECT_" +:+ type_name;
    "BINARY_OPERATION_" +:+ op_code +:+ "_NBOOL_" +:+ type_name +:+ "_OBJECT" ].

Definition _makeTypeOps (op_code type_name : string) (include_nbool : bool)
  : list string :=
  [ "BINARY_OPERATION_" +:+ op_code +:+ "_OBJECT_" +:+ type_name +:+ "_"
      +:+ type_name;
    "BINARY_OPERATION_" +:+ op_code +:+ "_OBJECT_OBJECT_" +:+ type_name;
    "BINARY_OPERATION_" +:+ op_code +:+ "_OBJECT_" +:+ type_name +:+ "_OBJECT" ]
  ++ (if include_nbool then _makeTypeOpsNbool op_code type_name else []).

(** The body of the two loops of [_makeFriendOps] for one pair. *)
Definition friend_pair (op_code : string) (include_nbool : bool)
    (type_name1 type_name2 : string) : list string :=
  if String.eqb type_name1 type_name2 then []
  else
    [ "BINARY_OPERATION_" +:+ op_code +:+ "_OBJECT_" +:+ type_name1 +:+ "_"
        +:+ type_name2;
      "BINARY_OPERATION_" +:+ op_code +:+ "_OBJECT_" +:+ type_name2 +:+ "_"
        +:+ type_name1 ]
    ++ (if include_nbool then
          [ "BINARY_OPERATION_" +:+ op_code +:+ "_NBOOL_" +:+ type_name1
              +:+ "_" +:+ type_name2;
            "BINARY_OPERATION_" +:+ op_code +:+ "_NBOOL_" +:+ type_name2
              +:+ "_" +:+ type_name1 ]
        else []).

Definition _makeFriendOps (op_code : string) (include_nbool : bool)
    (type_names : list string) : list string :=
  concat (map (fun type_name1 =>
                 concat (map (friend_pair op_code include_nbool type_name1)
                             type_names))
              type_names).

Definition _makeDefaultOps (op_code : string) (include_nbool : bool)
  : list string :=
  ("BINARY_OPERATION_" +:+ op_code +:+ "_OBJECT_OBJECT_OBJECT")
  :: (if include_nbool
      then ["BINARY_OPERATION_" +:+ op_code +:+ "_NBOOL_OBJECT_OBJECT"]
      else []).

Definition _makeNonContainerMathOps (op_code : string) : list string :=
  concat (map (fun type_name =>
                 if contains "BIT" op_code && String.eqb type_name "SET"
                 then []
                 else if contains "SUB" op_code && String.eqb type_name "SET"
                 then []
                 else _makeTypeOps op_code type_name true)
              ["TUPLE"; "LIST"; "DICT"; "SET"; "FROZENSET"]).

Definition specialized_add_helpers_set : list string :=
  OrderedSet.buildOrderedSet
    [ _makeTypeOps "ADD" "INT" true;
      _makeTypeOps "ADD" "LONG" true;
      _makeTypeOps "ADD" "FLOAT" true;
      _makeTypeOps "ADD" "STR" false;
      _makeTypeOps "ADD" "UNICODE" false;
      _makeTypeOps "ADD" "BYTES" false;
      _makeTypeOps "ADD" "TUPLE" false;
      _makeTypeOps "ADD" "LIST" true;
      _makeFriendOps "ADD" true ["INT"; "LONG"; "FLOAT"];
      _makeFriendOps "ADD" true ["STR"; "UNICODE"];
      _makeDefaultOps "ADD" true ].

Definition nonspecialized_add_helpers_set : list string :=
  OrderedSet.buildOrderedSet
    [ _makeTypeOpsNbool "ADD" "STR";
      _makeTypeOpsNbool "ADD" "UNICODE";
      _makeTypeOpsNbool "ADD" "BYTES";
      _makeTypeOpsNbool "ADD" "TUPLE" ].

Definition specialized_sub_helpers_set : list string :=
  OrderedSet.buildOrderedSet
    [ _makeTypeOps "SUB" "INT" true;
      _makeTypeOps "SUB" "LONG" true;
      _makeTypeOps "SUB" "FLOAT" true;
      _makeFriendOps "SUB" true ["INT"; "LONG"; "FLOAT"];
      _makeDefaultOps "SUB" true ].

Definition nonspecialized_sub_helpers_set : list string :=
  OrderedSet.buildOrderedSet
    [ _makeTypeOps "SUB" "STR" true;
      _makeTypeOps "SUB" "UNICODE" true;
      _makeTypeOps "SUB" "BYTES" true;
      _makeNonContainerMathOps "SUB" ].

Definition specialized_mult_helpers_set : list string :=
  OrderedSet.buildOrderedSet
    [ _makeTypeOps "MULT" "INT" true;
      _makeTypeOps "MULT" "LONG" true;
      _makeTypeOps "MULT" "FLOAT" true;
      [ "BINARY_OPERATION_MULT_OBJECT_CLONG_CLONG";
       "BINARY_OPERATION_MULT_OBJECT_INT_CLONG";
       "BINARY_OPERATION_MULT_OBJECT_CLONG_INT";
       "BINARY_OPERATION_MULT_OBJECT_OBJECT_STR";
       "BINARY_OPERATION_MULT_OBJECT_STR_OBJECT";
       "BINARY_OPERATION_MULT_OBJECT_INT_STR";
       "BINARY_OPERATION_MULT_OBJECT_STR_INT";
       "BINARY_OPERATION_MULT_OBJECT_LONG_STR";
       "BINARY_OPERATION_MULT_OBJECT_STR_LONG";
       "BINARY_OPERATION_MULT_OBJECT_OBJECT_UNICODE";
       "BINARY_OPERATION_MULT_OBJECT_UNICODE_OBJECT";
       "BINARY_OPERATION_MULT_OBJECT_INT_UNICODE";
       "BINARY_OPERATION_MULT_OBJECT_UNICODE_INT";
       "BINARY_OPERATION_MULT_OBJECT_LONG_UNICODE";
       "BINARY_OPERATION_MULT_OBJECT_UNICODE_LONG";
       "BINARY_OPERATION_MULT_OBJECT_OBJECT_TUPLE";
       "BINARY_OPERATION_MULT_OBJECT_TUPLE_OBJECT";
       "BINARY_OPERATION_MULT_OBJECT_INT_TUPLE";
       "BINARY_OPERATION_MULT_OBJECT_TUPLE_INT";
       "BINARY_OPERATION_MULT_OBJECT_LONG_TUPLE";
       "BINARY_OPERATION_MULT_OBJECT_TUPLE_LONG";
       "BINARY_OPERATION_MULT_OBJECT_OBJECT_LIST";
       "BINARY_OPERATION_MULT_OBJECT_LIST_OBJECT";
       "BINARY_OPERATION_MULT_OBJECT_INT_LIST";
       "BINARY_OPERATION_MULT_OBJECT_LIST_INT";
       "BINARY_OPERATION_MULT_OBJECT_LONG_LIST";
       "BINARY_OPERATION_MULT_OBJECT_LIST_LONG";
       "BINARY_OPERATION_MULT_OBJECT_OBJECT_BYTES";
       "BINARY_OPERATION_MULT_OBJECT_BYTES_OBJECT";
       "BINARY_OPERATION_MULT_OBJECT_LONG_BYTES";
       "BINARY_OPERATION_MULT_OBJECT_BYTES_LONG" ];
      _makeFriendOps "MULT" true ["INT"; "LONG"; "FLOAT"];
      _makeDefaultOps "MULT" true ].

Definition specialized_truediv_helpers_set : list string :=
  OrderedSet.buildOrderedSet
    [ _makeTypeOps "TRUEDIV" "INT" true;
      _makeTypeOps "TRUEDIV" "LONG" true;
      _makeTypeOps "TRUEDIV" "FLOAT" true;
      _makeFriendOps "TRUEDIV" true ["INT"; "LONG"; "FLOAT"];
      _makeDefaultOps "TRUEDIV" true ].

Definition nonspecialized_truediv_helpers_set : list string :=
  OrderedSet.buildOrderedSet
    [ _makeTypeOps "TRUEDIV" "UNICODE" true;
      _makeTypeOps "TRUEDIV" "STR" true;
      _makeTypeOps "TRUEDIV" "BYTES" true;
      _makeNonContainerMathOps "TRUEDIV" ].

Definition specialized_olddiv_helpers_set : list string :=
  OrderedSet.of_values (map (replace "TRUEDIV" "OLDDIV") specialized_truediv_helpers_set).

Definition nonspecialized_olddiv_helpers_set : list string :=
  OrderedSet.of_values (map (replace "TRUEDIV" "OLDDIV") nonspecialized_truediv_helpers_set).

Definition specialized_floordiv_helpers_set : list string :=
  OrderedSet.of_values (map (replace "TRUEDIV" "FLOORDIV") specialized_truediv_helpers_set).

Definition nonspecialized_floordiv_helpers_set : list string :=
  OrderedSet.of_values (map (replace "TRUEDIV" "FLOORDIV") nonspecialized_truediv_helpers_set).

Definition specialized_mod_helpers_set : list string :=
  OrderedSet.buildOrderedSet
    [ _makeTypeOps "MOD" "INT" true;
      _makeTypeOps "MOD" "LONG" true;
      _makeTypeOps "MOD" "FLOAT" true;
      _makeFriendOps "MOD" true ["INT"; "LONG"; "FLOAT"];
      [ "BINARY_OPERATION_MOD_OBJECT_STR_INT";
       "BINARY_OPERATION_MOD_OBJECT_STR_LONG";
       "BINARY_OPERATION_MOD_OBJECT_STR_FLOAT";
       "BINARY_OPERATION_MOD_OBJECT_STR_STR";
       "BINARY_OPERATION_MOD_OBJECT_STR_UNICODE";
       "BINARY_OPERATION_MOD_OBJECT_STR_TUPLE";
       "BINARY_OPERATION_MOD_OBJECT_STR_LIST";
       "BINARY_OPERATION_MOD_OBJECT_STR_DICT";
       "BINARY_OPERATION_MOD_OBJECT_STR_OBJECT";
       "BINARY_OPERATION_MOD_OBJECT_UNICODE_INT";
       "BINARY_OPERATION_MOD_OBJECT_UNICODE_LONG";
       "BINARY_OPERATION_MOD_OBJECT_UNICODE_FLOAT";
       "BINARY_OPERATION_MOD_OBJECT_UNICODE_STR";
       "BINARY_OPERATION_MOD_OBJECT_UNICODE_BYTES";
       "BINARY_OPERATION_MOD_OBJECT_UNICODE_UNICODE";
       "BINARY_OPERATION_MOD_OBJECT_UNICODE_TUPLE";
       "BINARY_OPERATION_MOD_OBJECT_UNICODE_LIST";
       "BINARY_OPERATION_MOD_OBJECT_UNICODE_DICT";
       "BINARY_OPERATION_MOD_OBJECT_UNICODE_OBJECT";
       "BINARY_OPERATION_MOD_OBJECT_BYTES_BYTES";
       "BINARY_OPERATION_MOD_OBJECT_BYTES_LONG";
       "BINARY_OPERATION_MOD_OBJECT_BYTES_FLOAT";
       "BINARY_OPERATION_MOD_OBJECT_BYTES_UNICODE";
       "BINARY_OPERATION_MOD_OBJECT_BYTES_TUPLE";
       "BINARY_OPERATION_MOD_OBJECT_BYTES_LIST";
       "BINARY_OPERATION_MOD_OBJECT_BYTES_DICT";
       "BINARY_OPERATION_MOD_OBJECT_BYTES_OBJECT";
       "BINARY_OPERATION_MOD_OBJECT_OBJECT_STR";
       "BINARY_OPERATION_MOD_OBJECT_OBJECT_BYTES";
       "BINARY_OPERATION_MOD_OBJECT_OBJECT_UNICODE";
       "BINARY_OPERATION_MOD_OBJECT_OBJECT_TUPLE";
       "BINARY_OPERATION_MOD_OBJECT_OBJECT_LIST";
       "BINARY_OPERATION_MOD_OBJECT_OBJECT_DICT";
       "BINARY_OPERATION_MOD_OBJECT_OBJECT_OBJECT" ];
      _makeDefaultOps "MOD" true ].

Definition nonspecialized_mod_helpers_set : list string :=
  OrderedSet.buildOrderedSet
    [ [ "BINARY_OPERATION_MOD_OBJECT_TUPLE_OBJECT";
       "BINARY_OPERATION_MOD_OBJECT_LIST_OBJECT";
       "BINARY_OPERATION_MOD_NBOOL_STR_INT";
       "BINARY_OPERATION_MOD_NBOOL_STR_LONG";
       "BINARY_OPERATION_MOD_NBOOL_STR_FLOAT";
       "BINARY_OPERATION_MOD_NBOOL_STR_STR";
       "BINARY_OPERATION_MOD_NBOOL_STR_UNICODE";
       "BINARY_OPERATION_MOD_NBOOL_STR_TUPLE";
       "BINARY_OPERATION_MOD_NBOOL_STR_LIST";
       "BINARY_OPERATION_MOD_NBOOL_STR_DICT";
       "BINARY_OPERATION_MOD_NBOOL_STR_OBJECT";
       "BINARY_OPERATION_MOD_NBOOL_UNICODE_INT";
       "BINARY_OPERATION_MOD_NBOOL_UNICODE_LONG";
       "BINARY_OPERATION_MOD_NBOOL_UNICODE_FLOAT";
       "BINARY_OPERATION_MOD_NBOOL_UNICODE_STR";
       "BINARY_OPERATION_MOD_NBOOL_UNICODE_BYTES";
       "BINARY_OPERATION_MOD_NBOOL_UNICODE_UNICODE";
       "BINARY_OPERATION_MOD_NBOOL_UNICODE_TUPLE";
       "BINARY_OPERATION_MOD_NBOOL_UNICODE_LIST";
       "BINARY_OPERATION_MOD_NBOOL_UNICODE_DICT";
       "BINARY_OPERATION_MOD_NBOOL_UNICODE_OBJECT" ] ].

Definition specialized_bitor_helpers_set : list string :=
  OrderedSet.buildOrderedSet
    [ _makeTypeOps "BITOR" "LONG" true;
      _makeTypeOps "BITOR" "INT" true;
      _makeFriendOps "BITOR" true ["INT"; "LONG"];
      [ "BINARY_OPERATION_BITOR_OBJECT_SET_SET";
       "BINARY_OPERATION_BITOR_OBJECT_OBJECT_SET";
       "BINARY_OPERATION_BITOR_OBJECT_SET_OBJECT" ];
      _makeDefaultOps "BITOR" true ].

Definition nonspecialized_bitor_helpers_set : list string :=
  OrderedSet.buildOrderedSet
    [ _makeTypeOps "BITOR" "FLOAT" true;
      _makeNonContainerMathOps "BITOR";
      _makeTypeOps "BITOR" "UNICODE" true;
      _makeTypeOps "BITOR" "STR" true;
      _makeTypeOps "BITOR" "BYTES" true ].

Definition specialized_bitand_helpers_set : list string :=
  OrderedSet.of_values (map (replace "_BITOR_" "_BITAND_") specialized_bitor_helpers_set).

Definition nonspecialized_bitand_helpers_set : list string :=
  OrderedSet.of_values (map (replace "_BITOR_" "_BITAND_") nonspecialized_bitor_helpers_set).

Definition specialized_bitxor_helpers_set : list string :=
  OrderedSet.of_values (map (replace "_BITOR_" "_BITXOR_") specialized_bitor_helpers_set).

Definition nonspecialized_bitxor_helpers_set : list string :=
  OrderedSet.of_values (map (replace "_BITOR_" "_BITXOR_") nonspecialized_bitor_helpers_set).

Definition specialized_lshift_helpers_set : list string :=
  OrderedSet.of_values
    (map (replace "_BITOR_" "_LSHIFT_")
         (filter (fun helper => Is_true (negb (contains "_SET" helper) && negb (contains "_TUPLE" helper))) specialized_bitor_helpers_set)).

(** The first of the two assignments to [nonspecialized_lshift_helpers_set];
    the second, below, replaces it. *)

Definition nonspecialized_lshift_helpers_set_first : list string :=
  OrderedSet.buildOrderedSet
    [ _makeTypeOps "BITOR" "FLOAT" true;
      _makeNonContainerMathOps "BITOR" ].

Definition nonspecialized_lshift_helpers_set : list string :=
  OrderedSet.of_values (map (replace "_BITOR_" "_LSHIFT_") nonspecialized_bitor_helpers_set).

Definition specialized_rshift_helpers_set : list string :=
  OrderedSet.of_values (map (replace "_LSHIFT_" "_RSHIFT_") specialized_lshift_helpers_set).

Definition nonspecialized_rshift_helpers_set : list string :=
  OrderedSet.of_values (map (replace "_LSHIFT_" "_RSHIFT_") nonspecialized_lshift_helpers_set).

Definition specialized_pow_helpers_set : list string :=
  OrderedSet.buildOrderedSet
    [ _makeTypeOps "POW" "FLOAT" true;
      _makeTypeOps "POW" "LONG" true;
      _makeTypeOps "POW" "INT" true;
      _makeFriendOps "POW" true ["INT"; "LONG"];
      _makeDefaultOps "POW" true;
      [] ].

Definition nonspecialized_pow_helpers_set : list string :=
  OrderedSet.buildOrderedSet
    [ _makeTypeOps "POW" "STR" true;
      _makeTypeOps "POW" "UNICODE" true;
      _makeTypeOps "POW" "BYTES" true;
      _makeNonContainerMathOps "POW" ].

Definition specialized_divmod_helpers_set : list string :=
  OrderedSet.buildOrderedSet
    [ _makeTypeOps "DIVMOD" "INT" false;
      _makeTypeOps "DIVMOD" "LONG" false;
      _makeTypeOps "DIVMOD" "FLOAT" false;
      _makeDefaultOps "DIVMOD" false ].

Definition nonspecialized_divmod_helpers_set : list string :=
  OrderedSet.buildOrderedSet
    [ _makeTypeOpsNbool "DIVMOD" "INT";
      _makeTypeOpsNbool "DIVMOD" "LONG";
      _makeTypeOpsNbool "DIVMOD" "FLOAT";
      _makeTypeOps "DIVMOD" "UNICODE" true;
      _makeTypeOps "DIVMOD" "STR" true;
      _makeTypeOps "DIVMOD" "BYTES" true;
      _makeNonContainerMathOps "DIVMOD" ].

Definition specialized_matmult_helpers_set : list string :=
  OrderedSet.buildOrderedSet
    [ _makeTypeOps "MATMULT" "LONG" false;
      _makeTypeOps "MATMULT" "FLOAT" false;
      _makeDefaultOps "MATMULT" false ].

Definition nonspecialized_matmult_helpers_set : list string :=
  OrderedSet.buildOrderedSet
    [ _makeTypeOpsNbool "MATMULT" "LONG";
      _makeTypeOpsNbool "MATMULT" "FLOAT";
      _makeTypeOps "MATMULT" "TUPLE" true;
      _makeTypeOps "MATMULT" "LIST" true;
      _makeTypeOps "MATMULT" "DICT" true;
      _makeTypeOps "MATMULT" "BYTES" true;
      _makeTypeOps "MATMULT" "UNICODE" true ].

(** [nonspecialized_mult_helpers_set = None]. *)
Definition nonspecialized_mult_helpers_set : option (list string) := None.

(** The assignments of the module to the names of the two families, as its
    import makes them; it derives the in-place sets and checks one
    assertion on the way. *)
Definition module_assignments
  : PyError + list (string * option (list string)) :=
  try! specialized_imod_helpers_set :=
    deriveInplaceFromBinaryOperations (Some specialized_mod_helpers_set) in
  try! nonspecialized_imod_helpers_set :=
    deriveInplaceFromBinaryOperations (Some nonspecialized_mod_helpers_set) in
  try! _ :=
    (if bool_decide ("BINARY_OPERATION_DIVMOD_OBJECT_TUPLE_OBJECT"
                     ∈ nonspecialized_divmod_helpers_set)
     then inr tt else inl (NodeFault AssertionError)) in
  try! derived_specialized :=
    deriveInplaceFromBinaryOperations (Some specialized_add_helpers_set) in
  try! specialized_iadd_helpers_set :=
    match derived_specialized with
    | Some derived =>
      inr (Some (OrderedSet.buildOrderedSet
              [ derived;
                ["BINARY_OPERATION_ADD_LIST_TUPLE_INPLACE"] ]))
    | None => inl TypeError
    end in
  try! derived_nonspecialized :=
    deriveInplaceFromBinaryOperations (Some nonspecialized_add_helpers_set) in
  try! nonspecialized_iadd_helpers_set :=
    match derived_nonspecialized with
    | Some derived =>
      inr (Some (OrderedSet.buildOrderedSet
              [ derived;
                [ "BINARY_OPERATION_ADD_LIST_STR_INPLACE";
                "BINARY_OPERATION_ADD_LIST_BYTES_INPLACE";
                "BINARY_OPERATION_ADD_LIST_BYTEARRAY_INPLACE";
                "BINARY_OPERATION_ADD_LIST_UNICODE_INPLACE";
                "BINARY_OPERATION_ADD_LIST_SET_INPLACE";
                "BINARY_OPERATION_ADD_LIST_FROZENSET_INPLACE";
                "BINARY_OPERATION_ADD_LIST_DICT_INPLACE" ] ]))
    | None => inl TypeError
    end in
  try! specialized_isub_helpers_set :=
    deriveInplaceFromBinaryOperations (Some specialized_sub_helpers_set) in
  try! nonspecialized_isub_helpers_set :=
    deriveInplaceFromBinaryOperations (Some nonspecialized_sub_helpers_set) in
  try! specialized_imult_helpers_set :=
    deriveInplaceFromBinaryOperations (Some specialized_mult_helpers_set) in
  try! nonspecialized_imult_helpers_set :=
    deriveInplaceFromBinaryOperations nonspecialized_mult_helpers_set in
  try! specialized_ibitor_helpers_set :=
    deriveInplaceFromBinaryOperations (Some specialized_bitor_helpers_set) in
  try! nonspecialized_ibitor_helpers_set :=
    deriveInplaceFromBinaryOperations (Some nonspecialized_bitor_helpers_set) in
  try! specialized_ibitand_helpers_set :=
    deriveInplaceFromBinaryOperations (Some specialized_bitand_helpers_set) in
  try! nonspecialized_ibitand_helpers_set :=
    deriveInplaceFromBinaryOperations (Some nonspecialized_bitand_helpers_set) in
  try! specialized_ibitxor_helpers_set :=
    deriveInplaceFromBinaryOperations (Some specialized_bitxor_helpers_set) in
  try! nonspecialized_ibitxor_helpers_set :=
    deriveInplaceFromBinaryOperations (Some nonspecialized_bitxor_helpers_set) in
  try! specialized_ilshift_helpers_set :=
    deriveInplaceFromBinaryOperations (Some specialized_lshift_helpers_set) in
  try! nonspecialized_ilshift_helpers_set :=
    deriveInplaceFromBinaryOperations (Some nonspecialized_lshift_helpers_set) in
  try! specialized_irshift_helpers_set :=
    deriveInplaceFromBinaryOperations (Some specialized_rshift_helpers_set) in
  try! nonspecialized_irshift_helpers_set :=
    deriveInplaceFromBinaryOperations (Some nonspecialized_rshift_helpers_set) in
  try! specialized_ifloordiv_helpers_set :=
    deriveInplaceFromBinaryOperations (Some specialized_floordiv_helpers_set) in
  try! nonspecialized_ifloordiv_helpers_set :=
    deriveInplaceFromBinaryOperations (Some nonspecialized_floordiv_helpers_set) in
  try! specialized_itruediv_helpers_set :=
    deriveInplaceFromBinaryOperations (Some specialized_truediv_helpers_set) in
  try! nonspecialized_itruediv_helpers_set :=
    deriveInplaceFromBinaryOperations (Some nonspecialized_truediv_helpers_set) in
  try! specialized_iolddiv_helpers_set :=
    deriveInplaceFromBinaryOperations (Some specialized_olddiv_helpers_set) in
  try! nonspecialized_iolddiv_helpers_set :=
    deriveInplaceFromBinaryOperations (Some nonspecialized_olddiv_helpers_set) in
  try! specialized_ipow_helpers_set :=
    deriveInplaceFromBinaryOperations (Some specialized_pow_helpers_set) in
  try! nonspecialized_ipow_helpers_set :=
    deriveInplaceFromBinaryOperations (Some nonspecialized_pow_helpers_set) in
  try! specialized_imatmult_helpers_set :=
    deriveInplaceFromBinaryOperations (Some specialized_matmult_helpers_set) in
  try! nonspecialized_imatmult_helpers_set :=
    deriveInplaceFromBinaryOperations (Some nonspecialized_matmult_helpers_set) in
  inr [ ("specialized_add_helpers_set", Some specialized_add_helpers_set);
           ("nonspecialized_add_helpers_set", Some nonspecialized_add_helpers_set);
           ("specialized_sub_helpers_set", Some specialized_sub_helpers_set);
           ("nonspecialized_sub_helpers_set", Some nonspecialized_sub_helpers_set);
           ("specialized_mult_helpers_set", Some specialized_mult_helpers_set);
           ("nonspecialized_mult_helpers_set", nonspecialized_mult_helpers_set);
           ("specialized_truediv_helpers_set", Some specialized_truediv_helpers_set);
           ("nonspecialized_truediv_helpers_set", Some nonspecialized_truediv_helpers_set);
           ("specialized_olddiv_helpers_set", Some specialized_olddiv_helpers_set);
           ("nonspecialized_olddiv_helpers_set", Some nonspecialized_olddiv_helpers_set);
           ("specialized_floordiv_helpers_set", Some specialized_floordiv_helpers_set);
           ("nonspecialized_floordiv_helpers_set", Some nonspecialized_floordiv_helpers_set);
           ("specialized_mod_helpers_set", Some specialized_mod_helpers_set);
           ("nonspecialized_mod_helpers_set", Some nonspecialized_mod_helpers_set);
           ("specialized_bitor_helpers_set", Some specialized_bitor_helpers_set);
           ("nonspecialized_bitor_helpers_set", Some nonspecialized_bitor_helpers_set);
           ("specialized_bitand_helpers_set", Some specialized_bitand_helpers_set);
           ("nonspecialized_bitand_helpers_set", Some nonspecialized_bitand_helpers_set);
           ("specialized_bitxor_helpers_set", Some specialized_bitxor_helpers_set);
           ("nonspecialized_bitxor_helpers_set", Some nonspecialized_bitxor_helpers_set);
           ("specialized_lshift_helpers_set", Some specialized_lshift_helpers_set);
           ("nonspecialized_lshift_helpers_set", Some nonspecialized_lshift_helpers_set);
           ("specialized_rshift_helpers_set", Some specialized_rshift_helpers_set);
           ("nonspecialized_rshift_helpers_set", Some nonspecialized_rshift_helpers_set);
           ("specialized_pow_helpers_set", Some specialized_pow_helpers_set);
           ("nonspecialized_pow_helpers_set", Some nonspecialized_pow_helpers_set);
           ("specialized_divmod_helpers_set", Some specialized_divmod_helpers_set);
           ("nonspecialized_divmod_helpers_set", Some nonspecialized_divmod_helpers_set);
           ("specialized_matmult_helpers_set", Some specialized_matmult_helpers_set);
           ("nonspecialized_matmult_helpers_set", Some nonspecialized_matmult_helpers_set);
           ("specialized_imod_helpers_set", specialized_imod_helpers_set);
           ("nonspecialized_imod_helpers_set", nonspecialized_imod_helpers_set);
           ("specialized_iadd_helpers_set", specialized_iadd_helpers_set);
           ("nonspecialized_iadd_helpers_set", nonspecialized_iadd_helpers_set);
           ("specialized_isub_helpers_set", specialized_isub_helpers_set);
           ("nonspecialized_isub_helpers_set", nonspecialized_isub_helpers_set);
           ("specialized_imult_helpers_set", specialized_imult_helpers_set);
           ("nonspecialized_imult_helpers_set", nonspecialized_imult_helpers_set);
           ("specialized_ibitor_helpers_set", specialized_ibitor_helpers_set);
           ("nonspecialized_ibitor_helpers_set", nonspecialized_ibitor_helpers_set);
           ("specialized_ibitand_helpers_set", specialized_ibitand_helpers_set);
           ("nonspecialized_ibitand_helpers_set", nonspecialized_ibitand_helpers_set);
           ("specialized_ibitxor_helpers_set", specialized_ibitxor_helpers_set);
           ("nonspecialized_ibitxor_helpers_set", nonspecialized_ibitxor_helpers_set);
           ("specialized_ilshift_helpers_set", specialized_ilshift_helpers_set);
           ("nonspecialized_ilshift_helpers_set", nonspecialized_ilshift_helpers_set);
           ("specialized_irshift_helpers_set", specialized_irshift_helpers_set);
           ("nonspecialized_irshift_helpers_set", nonspecialized_irshift_helpers_set);
           ("specialized_ifloordiv_helpers_set", specialized_ifloordiv_helpers_set);
           ("nonspecialized_ifloordiv_helpers_set", nonspecialized_ifloordiv_helpers_set);
           ("specialized_itruediv_helpers_set", specialized_itruediv_helpers_set);
           ("nonspecialized_itruediv_helpers_set", nonspecialized_itruediv_helpers_set);
           ("specialized_iolddiv_helpers_set", specialized_iolddiv_helpers_set);
           ("nonspecialized_iolddiv_helpers_set", nonspecialized_iolddiv_helpers_set);
           ("specialized_ipow_helpers_set", specialized_ipow_helpers_set);
           ("nonspecialized_ipow_helpers_set", nonspecialized_ipow_helpers_set);
           ("specialized_imatmult_helpers_set", specialized_imatmult_helpers_set);
           ("nonspecialized_imatmult_helpers_set", nonspecialized_imatmult_helpers_set) ].

(** [globals()]: the names with the values assigned to them. *)
Definition module_globals : PyError + gmap string (option (list string)) :=
  try! assignments := module_assignments in
  inr (list_to_map assignments).

Definition getSpecializedOperations (operator : string)
  : PyError + option (list string) :=
  try! globals := module_globals in
  let name := "specialized_" +:+ lower operator +:+ "_helpers_set" in
  match globals !! name with
  | Some helpers => inr helpers
  | None => inl (KeyError name)
  end.

Definition getNonSpecializedOperations (operator : string)
  : PyError + option (list string) :=
  try! globals := module_globals in
  let name := "nonspecialized_" +:+ lower operator +:+ "_helpers_set" in
  match globals !! name with
  | Some helpers => inr helpers
  | None => inl (KeyError name)
  end.

Definition getCodeNameForOperation (operator : string) : PyError + string :=
  match operator with
  | EmptyString => inl IndexError
  | String c rest =>
    if Ascii.eqb c "I"%char then inr (upper rest) else inr (upper operator)
  end.

End HelperDefinitions.

(** ** Splitting and joining *)
Section split_join.
Import Stdlib.Strings.Ascii PyStr.
Variable sep : Ascii.ascii.

(** No character of [s] is the separator. *)
Fixpoint free_of (s : string) : bool :=
  match s with
  | EmptyString => true
  | String c s' => negb (Ascii.eqb c sep) && free_of s'
  end.

Lemma append_nil_l (s : string) : EmptyString +:+ s = s.
Proof. reflexivity. Qed.

Lemma append_cons (c : Ascii.ascii) (p s : string) :
  String c p +:+ s = String c (p +:+ s).
Proof. reflexivity. Qed.

Lemma split_not_nil (s : string) : split sep s <> [].
Proof.
  destruct s as [|c s]; cbn; [discriminate|].
  destruct (Ascii.eqb c sep); [discriminate|].
  destruct (split sep s); discriminate.
Qed.

Lemma split_free (s : string) : free_of s = true -> split sep s = [s].
Proof.
  induction s as [|c s IH]; cbn; [reflexivity|].
  destruct (Ascii.eqb c sep); cbn; [discriminate|].
  intros Hs. now rewrite (IH Hs).
Qed.

Lemma split_app (p s : string) :
  free_of p = true -> split sep (p +:+ String sep s) = p :: split sep s.
Proof.
  induction p as [|c p IH].
  - intros _. rewrite append_nil_l. cbn. now rewrite Ascii.eqb_refl.
  - rewrite append_cons. cbn.
    destruct (Ascii.eqb c sep); cbn; [discriminate|].
    intros Hp. now rewrite (IH Hp).
Qed.

(** Splitting what was joined gives the parts back. *)
Lemma split_join (parts : list string) :
  parts <> [] -> forallb free_of parts = true ->
  split sep (join sep parts) = parts.
Proof.
  induction parts as [|p parts IH]; [congruence|]. intros _.
  destruct parts as [|q parts].
  - cbn. rewrite andb_true_r. apply split_free.
  - change (join sep (p :: q :: parts))
      with (p +:+ String sep (join sep (q :: parts))).
    cbn [forallb]. intros [Hp Hrest]%andb_true_iff.
    rewrite (split_app _ _ Hp), IH; [reflexivity|discriminate|exact Hrest].
Qed.

(** Joining what was split gives the string back. *)
Lemma join_split (s : string) : join sep (split sep s) = s.
Proof.
  induction s as [|c s IH]; cbn; [reflexivity|].
  destruct (Ascii.eqb_spec c sep) as [->|Hc].
  - pose proof (split_not_nil s) as Hn.
    destruct (split sep s) as [|p ps] eqn:Hs; [congruence|].
    cbn [join]. cbn. now rewrite <- IH.
  - pose proof (split_not_nil s) as Hn.
    destruct (split sep s) as [|p ps] eqn:Hs; [congruence|].
    rewrite <- IH. destruct ps; reflexivity.
Qed.

Lemma startswith_app_free (x q t : string) :
  free_of x = true ->
  startswith x (q +:+ String sep t) = startswith x q.
Proof.
  revert q. induction x as [|a x IH]; intros q; cbn; [reflexivity|].
  destruct (Ascii.eqb a sep) eqn:Ha; cbn; [discriminate|]. intros Hx.
  destruct q as [|b q].
  - rewrite append_nil_l. now rewrite Ha.
  - rewrite append_cons. destruct (Ascii.eqb a b); [apply IH, Hx|reflexivity].
Qed.

Lemma contains_free (x s : string) :
  free_of s = true -> contains (String sep x) s = false.
Proof.
  induction s as [|c s IH]; cbn; [reflexivity|].
  rewrite (Ascii.eqb_sym sep c).
  destruct (Ascii.eqb c sep); cbn; [discriminate|]. exact IH.
Qed.

Lemma startswith_join (x q : string) (rest : list string) :
  free_of x = true ->
  startswith x (join sep (q :: rest)) = startswith x q.
Proof.
  intros Hx. destruct rest as [|r rest]; [reflexivity|].
  change (join sep (q :: r :: rest))
    with (q +:+ String sep (join sep (r :: rest))).
  now apply startswith_app_free.
Qed.

(** A separator followed by [x] occurs in a joined string exactly when a
    part other than the first starts with [x]. *)
Lemma contains_join (x : string) (parts : list string) :
  free_of x = true -> forallb free_of parts = true ->
  contains (String sep x) (join sep parts)
  = existsb (startswith x) (tail parts).
Proof.
  intros Hx. induction parts as [|p parts IH]; [reflexivity|].
  cbn [forallb]. intros [Hp Hrest]%andb_true_iff.
  destruct parts as [|q parts]; [now apply contains_free|].
  specialize (IH Hrest).
  change (join sep (p :: q :: parts))
    with (p +:+ String sep (join sep (q :: parts))).
  cbn [tail]. induction p as [|c p IHp].
  - rewrite append_nil_l. cbn [contains startswith]. rewrite Ascii.eqb_refl.
    rewrite (startswith_join _ _ _ Hx). cbn [existsb].
    destruct (startswith x q); [reflexivity|]. cbn [orb].
    rewrite IH. reflexivity.
  - cbn in Hp. apply andb_true_iff in Hp as [Hc Hp].
    rewrite append_cons. cbn [contains startswith].
    rewrite (Ascii.eqb_sym sep c).
    apply negb_true_iff in Hc. rewrite Hc. apply IHp, Hp.
Qed.

End split_join.

(** ** Taking helper names apart *)
Section helper_names.
Import Stdlib.Strings.Ascii PyStr HelperDefinitions.

(** A part of a name that can be told from its neighbours: it holds no
    underscore and does not start with [INPLACE]. *)
Definition plain (s : string) : bool :=
  free_of "_" s && negb (startswith "INPLACE" s).

(** The name of a binary helper, as the generators format it. *)
Definition binary_name (op_code target left_code right_code : string) : string :=
  "BINARY_OPERATION_" +:+ op_code +:+ "_" +:+ target +:+ "_" +:+ left_code
  +:+ "_" +:+ right_code.

(** The name of an in-place helper. *)
Definition inplace_name (op_code left_code right_code : string) : string :=
  "BINARY_OPERATION_" +:+ op_code +:+ "_" +:+ left_code +:+ "_" +:+ right_code
  +:+ "_INPLACE".

Lemma binary_name_join (op_code target left_code right_code : string) :
  binary_name op_code target left_code right_code
  = join "_" ["BINARY"; "OPERATION"; op_code; target; left_code; right_code].
Proof. reflexivity. Qed.

Lemma inplace_name_join (op_code left_code right_code : string) :
  inplace_name op_code left_code right_code
  = join "_" ["BINARY"; "OPERATION"; op_code; left_code; right_code; "INPLACE"].
Proof. reflexivity. Qed.

Lemma plain_free (s : string) : plain s = true -> free_of "_" s = true.
Proof. unfold plain. intros [H _]%andb_true_iff. exact H. Qed.

Lemma plain_not_inplace (s : string) :
  plain s = true -> startswith "INPLACE" s = false.
Proof. unfold plain. intros [_ H]%andb_true_iff. now apply negb_true_iff. Qed.

(** What [parseTypesFromHelper] returns, for every string: the parts at
    3, 4 and 5, or for a name holding [_INPLACE] no target and the parts at
    3 and 4; an [IndexError] when the name has too few parts, and no other
    error. *)
Theorem parseTypesFromHelper_outcome (helper_name : string) :
  parseTypesFromHelper helper_name
  = if contains "_INPLACE" helper_name then
      match split "_" helper_name with
      | _ :: _ :: _ :: left_code :: right_code :: _ =>
        inr (None, left_code, right_code)
      | _ => inl IndexError
      end
    else
      match split "_" helper_name with
      | _ :: _ :: _ :: target_code :: left_code :: right_code :: _ =>
        inr (Some target_code, left_code, right_code)
      | _ => inl IndexError
      end.
Proof.
  unfold parseTypesFromHelper, item.
  destruct (contains "_INPLACE" helper_name); cbn [negb];
    destruct (split "_" helper_name) as [|p0 [|p1 [|p2 [|p3 [|p4 [|p5 ps]]]]]];
    reflexivity.
Qed.

Lemma parse_binary_name (op_code target left_code right_code : string) :
  plain op_code = true -> plain target = true ->
  plain left_code = true -> plain right_code = true ->
  parseTypesFromHelper (binary_name op_code target left_code right_code)
  = inr (Some target, left_code, right_code).
Proof.
  intros Ho Ht Hl Hr. rewrite parseTypesFromHelper_outcome, binary_name_join.
  assert (Hfree : forallb (free_of "_")
            ["BINARY"; "OPERATION"; op_code; target; left_code; right_code]
          = true).
  { cbn [forallb]. rewrite (plain_free _ Ho), (plain_free _ Ht),
      (plain_free _ Hl), (plain_free _ Hr). reflexivity. }
  rewrite (contains_join "_" "INPLACE" _ eq_refl Hfree).
  cbn [tail existsb].
  rewrite (plain_not_inplace _ Ho), (plain_not_inplace _ Ht),
    (plain_not_inplace _ Hl), (plain_not_inplace _ Hr).
  cbn [startswith orb Ascii.eqb Bool.eqb].
  rewrite split_join; [reflexivity | discriminate | exact Hfree].
Qed.

Lemma parse_inplace_name (op_code left_code right_code : string) :
  free_of "_" op_code = true -> free_of "_" left_code = true ->
  free_of "_" right_code = true ->
  parseTypesFromHelper (inplace_name op_code left_code right_code)
  = inr (None, left_code, right_code).
Proof.
  intros Ho Hl Hr. rewrite parseTypesFromHelper_outcome, inplace_name_join.
  assert (Hfree : forallb (free_of "_")
            ["BINARY"; "OPERATION"; op_code; left_code; right_code; "INPLACE"]
          = true).
  { cbn [forallb]. rewrite Ho, Hl, Hr. reflexivity. }
  rewrite (contains_join "_" "INPLACE" _ eq_refl Hfree).
  cbn [tail existsb].
  replace (startswith "INPLACE" "INPLACE") with true by reflexivity.
  rewrite !orb_true_r.
  rewrite split_join; [reflexivity | discriminate | exact Hfree].
Qed.

(** A name formatted from an operation, a target and two operand types
    gives these back when parsed, and an in-place name gives its operand
    types back with no target, provided the pieces can be told apart: no
    underscore in them, and none starting with [INPLACE]. *)
Theorem parse_of_formatted_name (op_code target left_code right_code : string) :
  plain op_code = true -> plain target = true ->
  plain left_code = true -> plain right_code = true ->
  parseTypesFromHelper
    ("BINARY_OPERATION_" +:+ op_code +:+ "_" +:+ target +:+ "_" +:+ left_code
     +:+ "_" +:+ right_code)
  = inr (Some target, left_code, right_code)
  /\ parseTypesFromHelper
       ("BINARY_OPERATION_" +:+ op_code +:+ "_" +:+ left_code +:+ "_"
        +:+ right_code +:+ "_INPLACE")
     = inr (None, left_code, right_code).
Proof.
  intros Ho Ht Hl Hr. split.
  - now apply parse_binary_name.
  - apply parse_inplace_name; now apply plain_free.
Qed.

(** The names [_makeTypeOps] generates parse, in the order generated, to
    the target [OBJECT] with the type on both sides, on the right and on
    the left, followed by the same for [NBOOL] when it is asked for. *)
Theorem makeTypeOps_names_parse (op_code type_name : string)
    (include_nbool : bool) :
  plain op_code = true -> plain type_name = true ->
  map parseTypesFromHelper (_makeTypeOps op_code type_name include_nbool)
  = map inr
      ([ (Some "OBJECT", type_name, type_name);
         (Some "OBJECT", "OBJECT", type_name);
         (Some "OBJECT", type_name, "OBJECT") ]
       ++ (if include_nbool
           then [ (Some "NBOOL", type_name, type_name);
                  (Some "NBOOL", "OBJECT", type_name);
                  (Some "NBOOL", type_name, "OBJECT") ]
           else [])).
Proof.
  intros Ho Ht.
  assert (Hb : forall target l r,
             plain target = true -> plain l = true -> plain r = true ->
             parseTypesFromHelper (binary_name op_code target l r)
             = inr (Some target, l, r))
    by (intros; now apply parse_binary_name).
  unfold _makeTypeOps, _makeTypeOpsNbool.
  change ("BINARY_OPERATION_" +:+ op_code +:+ "_OBJECT_" +:+ type_name +:+ "_"
          +:+ type_name)
    with (binary_name op_code "OBJECT" type_name type_name).
  change ("BINARY_OPERATION_" +:+ op_code +:+ "_OBJECT_OBJECT_" +:+ type_name)
    with (binary_name op_code "OBJECT" "OBJECT" type_name).
  change ("BINARY_OPERATION_" +:+ op_code +:+ "_OBJECT_" +:+ type_name
          +:+ "_OBJECT")
    with (binary_name op_code "OBJECT" type_name "OBJECT").
  change ("BINARY_OPERATION_" +:+ op_code +:+ "_NBOOL_" +:+ type_name +:+ "_"
          +:+ type_name)
    with (binary_name op_code "NBOOL" type_name type_name).
  change ("BINARY_OPERATION_" +:+ op_code +:+ "_NBOOL_OBJECT_" +:+ type_name)
    with (binary_name op_code "NBOOL" "OBJECT" type_name).
  change ("BINARY_OPERATION_" +:+ op_code +:+ "_NBOOL_" +:+ type_name
          +:+ "_OBJECT")
    with (binary_name op_code "NBOOL" type_name "OBJECT").
  destruct include_nbool; cbn [map app];
    rewrite !Hb by (first [assumption | reflexivity]); reflexivity.
Qed.

End helper_names.

(** [ADD] of [INT] to [LONG], with target [OBJECT] and in place. *)
Lemma parse_of_formatted_name_witness :
  HelperDefinitions.parseTypesFromHelper "BINARY_OPERATION_ADD_OBJECT_INT_LONG"
  = inr (Some "OBJECT", "INT", "LONG")
  /\ HelperDefinitions.parseTypesFromHelper "BINARY_OPERATION_ADD_INT_LONG_INPLACE"
     = inr (None, "INT", "LONG").
Proof.
  exact (parse_of_formatted_name "ADD" "OBJECT" "INT" "LONG"
           eq_refl eq_refl eq_refl eq_refl).
Defined.

(** The six names for [MULT] and [FLOAT]. *)
Lemma makeTypeOps_names_parse_witness :
  map HelperDefinitions.parseTypesFromHelper
    (HelperDefinitions._makeTypeOps "MULT" "FLOAT" true)
  = map inr
      [ (Some "OBJECT", "FLOAT", "FLOAT"); (Some "OBJECT", "OBJECT", "FLOAT");
        (Some "OBJECT", "FLOAT", "OBJECT"); (Some "NBOOL", "FLOAT", "FLOAT");
        (Some "NBOOL", "OBJECT", "FLOAT"); (Some "NBOOL", "FLOAT", "OBJECT") ].
Proof.
  exact (makeTypeOps_names_parse "MULT" "FLOAT" true eq_refl eq_refl).
Defined.

(** ** Ordered sets *)
Section ordered_sets.

Lemma add_elem (s : list string) (x y : string) :
  y ∈ OrderedSet.add s x <-> y ∈ s \/ y = x.
Proof.
  unfold OrderedSet.add. case_bool_decide as Hx.
  - split; [auto|]. intros [Hy| ->]; assumption.
  - rewrite elem_of_app, list_elem_of_singleton. reflexivity.
Qed.

Lemma add_NoDup (s : list string) (x : string) :
  NoDup s -> NoDup (OrderedSet.add s x).
Proof.
  intros Hs. unfold OrderedSet.add. case_bool_decide as Hx; [exact Hs|].
  apply NoDup_app. split; [exact Hs|]. split.
  - intros y Hy Hyx. apply list_elem_of_singleton in Hyx as ->. contradiction.
  - apply NoDup_singleton.
Qed.

Lemma add_length (s : list string) (x : string) :
  length (OrderedSet.add s x) <= S (length s).
Proof.
  unfold OrderedSet.add. case_bool_decide; [lia|].
  rewrite length_app. cbn. lia.
Qed.

Lemma foldl_add_elem (values s : list string) (y : string) :
  y ∈ foldl OrderedSet.add s values <-> y ∈ s \/ y ∈ values.
Proof.
  revert s. induction values as [|x values IH]; intros s; cbn.
  - rewrite elem_of_nil. tauto.
  - rewrite IH, add_elem, elem_of_cons. tauto.
Qed.

Lemma foldl_add_NoDup (values s : list string) :
  NoDup s -> NoDup (foldl OrderedSet.add s values).
Proof.
  revert s. induction values as [|x values IH]; intros s Hs; cbn; [exact Hs|].
  apply IH, add_NoDup, Hs.
Qed.

Lemma foldl_add_length (values s : list string) :
  length (foldl OrderedSet.add s values) <= length s + length values.
Proof.
  revert s. induction values as [|x values IH]; intros s; cbn; [lia|].
  specialize (IH (OrderedSet.add s x)). pose proof (add_length s x). lia.
Qed.

(** An ordered set holds the values it was made from, each once. *)
Lemma of_values_elem (values : list string) (y : string) :
  y ∈ OrderedSet.of_values values <-> y ∈ values.
Proof.
  unfold OrderedSet.of_values. rewrite foldl_add_elem, elem_of_nil. tauto.
Qed.

Lemma of_values_NoDup (values : list string) :
  NoDup (OrderedSet.of_values values).
Proof. apply foldl_add_NoDup, NoDup_nil_2. Qed.

Lemma of_values_length (values : list string) :
  length (OrderedSet.of_values values) <= length values.
Proof. apply (foldl_add_length values []). Qed.

Lemma of_values_nil_inv (values : list string) :
  OrderedSet.of_values values = [] -> values = [].
Proof.
  intros Hnil. destruct values as [|x values]; [reflexivity|].
  assert (Hx : x ∈ OrderedSet.of_values (x :: values))
    by (apply of_values_elem; left).
  rewrite Hnil in Hx. apply elem_of_nil in Hx. destruct Hx.
Qed.

End ordered_sets.

(** ** The generators of names for pairs of types *)
Section friend_ops.
Import Stdlib.Strings.Ascii PyStr HelperDefinitions.

Lemma elem_of_concat_map {A B} (f : A -> list B) (l : list A) (y : B) :
  y ∈ concat (map f l) <-> exists x, x ∈ l /\ y ∈ f x.
Proof.
  induction l as [|a l IH]; cbn.
  - rewrite elem_of_nil. split; [tauto|]. intros (x & Hx & _).
    apply elem_of_nil in Hx. destruct Hx.
  - rewrite elem_of_app, IH. split.
    + intros [Hy|(x & Hx & Hy)]; [exists a|exists x]; split; auto;
        [left|now right].
    + intros (x & Hx & Hy). apply elem_of_cons in Hx as [->|Hx]; eauto.
Qed.

Lemma friend_pair_elem (op_code : string) (include_nbool : bool)
    (t1 t2 name : string) :
  name ∈ friend_pair op_code include_nbool t1 t2
  <-> t1 <> t2
      /\ (name = binary_name op_code "OBJECT" t1 t2
          \/ name = binary_name op_code "OBJECT" t2 t1
          \/ (include_nbool = true
              /\ (name = binary_name op_code "NBOOL" t1 t2
                  \/ name = binary_name op_code "NBOOL" t2 t1))).
Proof.
  unfold friend_pair. destruct (String.eqb_spec t1 t2) as [->|Hne].
  - rewrite elem_of_nil. tauto.
  - change ("BINARY_OPERATION_" +:+ op_code +:+ "_OBJECT_" +:+ t1 +:+ "_" +:+ t2)
      with (binary_name op_code "OBJECT" t1 t2).
    change ("BINARY_OPERATION_" +:+ op_code +:+ "_OBJECT_" +:+ t2 +:+ "_" +:+ t1)
      with (binary_name op_code "OBJECT" t2 t1).
    change ("BINARY_OPERATION_" +:+ op_code +:+ "_NBOOL_" +:+ t1 +:+ "_" +:+ t2)
      with (binary_name op_code "NBOOL" t1 t2).
    change ("BINARY_OPERATION_" +:+ op_code +:+ "_NBOOL_" +:+ t2 +:+ "_" +:+ t1)
      with (binary_name op_code "NBOOL" t2 t1).
    destruct include_nbool; rewrite elem_of_app, !elem_of_cons, !elem_of_nil;
      intuition congruence.
Qed.

(** [_makeFriendOps] names exactly the ordered pairs of two different
    types of its list, with target [OBJECT] and, when asked for, with
    target [NBOOL]: never a type paired with itself, never a type from
    outside the list, and with every pair also the pair turned around.
    A list of fewer than two different types gives no name at all. *)
Theorem makeFriendOps_names (op_code : string) (include_nbool : bool)
    (type_names : list string) (name : string) :
  name ∈ _makeFriendOps op_code include_nbool type_names
  <-> exists target t1 t2,
        t1 ∈ type_names /\ t2 ∈ type_names /\ t1 <> t2
        /\ (target = "OBJECT" \/ (target = "NBOOL" /\ include_nbool = true))
        /\ name
           = "BINARY_OPERATION_" +:+ op_code +:+ "_" +:+ target +:+ "_"
             +:+ t1 +:+ "_" +:+ t2.
Proof.
  unfold _makeFriendOps. rewrite elem_of_concat_map. split.
  - intros (t1 & H1 & Hname). apply elem_of_concat_map in Hname
      as (t2 & H2 & Hname).
    apply friend_pair_elem in Hname
      as (Hne & [->|[->|(Hnb & [->| ->])]]).
    + exists "OBJECT", t1, t2. repeat split; auto.
    + exists "OBJECT", t2, t1. repeat split; auto.
    + exists "NBOOL", t1, t2. repeat split; auto.
    + exists "NBOOL", t2, t1. repeat split; auto.
  - intros (target & t1 & t2 & H1 & H2 & Hne & Htarget & ->).
    exists t1. split; [exact H1|]. apply elem_of_concat_map.
    exists t2. split; [exact H2|]. apply friend_pair_elem.
    split; [exact Hne|]. destruct Htarget as [->|[-> Hnb]]; auto.
Qed.

End friend_ops.

(** ** Deriving the in-place helpers *)
Section derive_inplace.
Import Stdlib.Strings.Ascii PyStr HelperDefinitions.

Lemma startswith_refl (s : string) : startswith s s = true.
Proof.
  induction s as [|c s IH]; cbn; [reflexivity|].
  now rewrite Ascii.eqb_refl.
Qed.

Lemma contains_suffix (s x : string) : contains s (x +:+ s) = true.
Proof.
  induction x as [|c x IH].
  - rewrite append_nil_l. destruct s; cbn; [reflexivity|].
    now rewrite Ascii.eqb_refl, startswith_refl.
  - rewrite append_cons. cbn [contains].
    destruct (startswith s (String c (x +:+ s))); [reflexivity|exact IH].
Qed.

Lemma no_CLONG_operands (target : option string) (l r : string) :
  no_CLONG (target, l, r) = true -> l <> "CLONG" /\ r <> "CLONG".
Proof.
  unfold no_CLONG. intros Hn. apply negb_true_iff in Hn.
  apply orb_false_iff in Hn as [Hn Hr]. apply orb_false_iff in Hn as [_ Hl].
  split; [now apply String.eqb_neq | now apply String.eqb_neq].
Qed.

(** Every name the generator gives comes from a helper with target
    [OBJECT] and without [CLONG] operand, and ends in [_INPLACE]. *)
Lemma deriveInplace_names_sound (operation : string)
    (operations names : list string) :
  deriveInplace_names operation operations = inr names ->
  length names <= length operations
  /\ forall name, name ∈ names ->
       contains "_INPLACE" name = true
       /\ exists helper_name l r,
            helper_name ∈ operations
            /\ parseTypesFromHelper helper_name = inr (Some "OBJECT", l, r)
            /\ l <> "CLONG" /\ r <> "CLONG"
            /\ name
               = replace (operation +:+ "_OBJECT") operation helper_name
                 +:+ "_INPLACE".
Proof.
  revert names. induction operations as [|h operations IH]; intros names.
  - cbn. intros [= <-]. split; [cbn; lia|]. intros name Hin.
    apply elem_of_nil in Hin. destruct Hin.
  - cbn [deriveInplace_names].
    destruct (parseTypesFromHelper h) as [e|[[target l] r]] eqn:Hparse;
      [discriminate|].
    cbn [fst]. case_bool_decide as Htarget.
    + destruct (no_CLONG (target, l, r)) eqn:Hclong.
      * destruct (deriveInplace_names operation operations) as [e|rest];
          [discriminate|].
        intros [= <-]. destruct (IH rest eq_refl) as [Hlen Hsound].
        split; [cbn; lia|]. intros name Hin.
        apply elem_of_cons in Hin as [->|Hin].
        -- split; [apply contains_suffix|].
           exists h, l, r. apply no_CLONG_operands in Hclong as [Hl Hr].
           subst target. repeat split; auto. left.
        -- destruct (Hsound name Hin) as (Hc & h0 & l0 & r0 & Hin0 & Hrest).
           split; [exact Hc|]. exists h0, l0, r0. split; [now right|exact Hrest].
      * intros Hrest. destruct (IH names Hrest) as [Hlen Hsound].
        split; [cbn; lia|]. intros name Hin.
        destruct (Hsound name Hin) as (Hc & h0 & l0 & r0 & Hin0 & Hrest0).
        split; [exact Hc|]. exists h0, l0, r0. split; [now right|exact Hrest0].
    + intros Hrest. destruct (IH names Hrest) as [Hlen Hsound].
      split; [cbn; lia|]. intros name Hin.
      destruct (Hsound name Hin) as (Hc & h0 & l0 & r0 & Hin0 & Hrest0).
      split; [exact Hc|]. exists h0, l0, r0. split; [now right|exact Hrest0].
Qed.

(** [deriveInplaceFromBinaryOperations] answers [None] for no set and for
    the empty set, and for these only.  The set it derives otherwise is no
    larger than the given one and holds no name twice; each of its names
    ends in [_INPLACE], so that it parses as an in-place helper, and comes
    from a given helper whose target is [OBJECT] and whose operands are not
    [CLONG]. *)
Theorem deriveInplace_outcome (operations_set : option (list string))
    (derived : option (list string)) :
  deriveInplaceFromBinaryOperations operations_set = inr derived ->
  (derived = None <-> operations_set = None \/ operations_set = Some [])
  /\ forall names, derived = Some names ->
       exists operations,
         operations_set = Some operations
         /\ length names <= length operations
         /\ NoDup names
         /\ forall name, name ∈ names ->
              contains "_INPLACE" name = true
              /\ (forall types, parseTypesFromHelper name = inr types ->
                    fst (fst types) = None)
              /\ exists helper_name l r,
                   helper_name ∈ operations
                   /\ parseTypesFromHelper helper_name
                      = inr (Some "OBJECT", l, r)
                   /\ l <> "CLONG" /\ r <> "CLONG".
Proof.
  unfold deriveInplaceFromBinaryOperations.
  destruct operations_set as [[|first rest]|].
  - intros [= <-]. split; [tauto|]. discriminate.
  - destruct (item (split "_" first) 2) as [e|operation]; [discriminate|].
    destruct (deriveInplace_names operation (first :: rest)) as [e|names0]
      eqn:Hnames; [discriminate|].
    intros [= <-]. split.
    + split; [discriminate|]. intros [Hx|Hx]; discriminate.
    + intros names [= <-]. exists (first :: rest).
      destruct (deriveInplace_names_sound _ _ _ Hnames) as [Hlen Hsound].
      split; [reflexivity|]. split.
      { pose proof (of_values_length names0). lia. }
      split; [apply of_values_NoDup|].
      intros name Hin. apply (proj1 (of_values_elem _ _)) in Hin.
      destruct (Hsound name Hin)
        as (Hc & h0 & l0 & r0 & Hin0 & Hparse & Hl & Hr & _).
      split; [exact Hc|]. split.
      * intros types. rewrite parseTypesFromHelper_outcome, Hc.
        destruct (split "_" name) as [|p0 [|p1 [|p2 [|p3 [|p4 ps]]]]];
          try discriminate.
        now intros [= <-].
      * exists h0, l0, r0. auto.
  - intros [= <-]. split; [tauto|]. discriminate.
Qed.

End derive_inplace.

(** From the [OBJECT] helper for [INT] operands and the one for [CLONG]
    operands, only the first gets an in-place helper. *)
Lemma deriveInplace_outcome_witness :
  HelperDefinitions.deriveInplaceFromBinaryOperations
    (Some ["BINARY_OPERATION_MULT_OBJECT_INT_INT";
           "BINARY_OPERATION_MULT_OBJECT_CLONG_CLONG";
           "BINARY_OPERATION_MULT_NBOOL_INT_INT"])
  = inr (Some ["BINARY_OPERATION_MULT_INT_INT_INPLACE"])
  /\ NoDup ["BINARY_OPERATION_MULT_INT_INT_INPLACE"].
Proof.
  split; [reflexivity|].
  destruct (proj2 (deriveInplace_outcome
                     (Some ["BINARY_OPERATION_MULT_OBJECT_INT_INT";
                            "BINARY_OPERATION_MULT_OBJECT_CLONG_CLONG";
                            "BINARY_OPERATION_MULT_NBOOL_INT_INT"])
                     (Some ["BINARY_OPERATION_MULT_INT_INT_INPLACE"])
                     eq_refl)
              _ eq_refl)
    as (operations & _ & _ & Hnodup & _).
  exact Hnodup.
Defined.

(** ** The sets of the module *)
Section helper_tables.
Import Stdlib.Strings.Ascii PyStr HelperDefinitions.

(** The assignments made, none when the import fails. *)
Definition assignments_made
    (outcome : PyError + list (string * option (list string)))
  : list (string * option (list string)) :=
  match outcome with inr table => table | inl _ => [] end.

(** What the import assigns, computed once. *)
Definition assignments_table : list (string * option (list string)) :=
  Eval vm_compute in assignments_made module_assignments.

Lemma module_assignments_eq : module_assignments = inr assignments_table.
Proof. vm_compute. reflexivity. Qed.

(** The operators the module has sets for, in lower case. *)
Definition known_operators : list string :=
  [ "add"; "sub"; "mult"; "truediv"; "olddiv"; "floordiv"; "mod"; "bitor";
    "bitand"; "bitxor"; "lshift"; "rshift"; "pow"; "divmod"; "matmult";
    "iadd"; "isub"; "imult"; "itruediv"; "iolddiv"; "ifloordiv"; "imod";
    "ibitor"; "ibitand"; "ibitxor"; "ilshift"; "irshift"; "ipow";
    "imatmult" ].

(** The operator of a global name, and whether the name is of the
    specialized family. *)
Definition name_key (name : string) : option (bool * string) :=
  match split "_" name with
  | [kind; key; word1; word2] =>
    if String.eqb word1 "helpers" && String.eqb word2 "set" then
      if String.eqb kind "specialized" then Some (true, key)
      else if String.eqb kind "nonspecialized" then Some (false, key)
      else None
    else None
  | _ => None
  end.

Definition name_known (name : string) : bool :=
  match name_key name with
  | Some (_, key) => bool_decide (key ∈ known_operators)
  | None => false
  end.

Lemma table_names_known :
  forallb (fun entry => name_known (fst entry)) assignments_table = true.
Proof. vm_compute. reflexivity. Qed.

Lemma table_names_NoDup : NoDup (assignments_table.*1).
Proof. apply (bool_decide_unpack _). vm_compute. exact I. Qed.

Lemma length_append (a b : string) :
  String.length (a +:+ b) = String.length a + String.length b.
Proof.
  induction a as [|c a IH]; [reflexivity|].
  rewrite append_cons. cbn. now rewrite IH.
Qed.

Lemma append_inj_r (x y s : string) : x +:+ s = y +:+ s -> x = y.
Proof.
  revert y. induction x as [|c x IH]; intros [|d y] Heq.
  - reflexivity.
  - apply (f_equal String.length) in Heq.
    rewrite append_nil_l, length_append in Heq. cbn in Heq. lia.
  - apply (f_equal String.length) in Heq.
    rewrite append_nil_l, length_append in Heq. cbn in Heq. lia.
  - rewrite !append_cons in Heq. injection Heq as -> Heq.
    now rewrite (IH _ Heq).
Qed.

(** The global name made for an operator has that operator as its key. *)
Lemma name_key_of_lookup (specialized : bool) (key : string) :
  let kind := if specialized then "specialized" else "nonspecialized" in
  forall name, name = kind +:+ "_" +:+ key +:+ "_helpers_set" ->
  forall found, name_key name = Some found -> found = (specialized, key).
Proof.
  intros kind name -> found. unfold name_key.
  change (kind +:+ "_" +:+ key +:+ "_helpers_set")
    with (kind +:+ String "_" (key +:+ "_helpers_set")).
  rewrite split_app by (destruct specialized; reflexivity).
  pose proof (join_split "_" (key +:+ "_helpers_set")) as Hjoin.
  destruct (split "_" (key +:+ "_helpers_set"))
    as [|k0 [|k1 [|k2 [|k3 ks]]]] eqn:Hsplit; try discriminate.
  destruct (String.eqb_spec k1 "helpers") as [->|Hk1]; [|discriminate].
  destruct (String.eqb_spec k2 "set") as [->|Hk2]; [|discriminate].
  cbn [andb].
  change (join "_" ["helpers"; "set"]) with "helpers_set" in Hjoin.
  assert (Hkey : k0 = key).
  { change (join "_" [k0; "helpers"; "set"]) with (k0 +:+ "_helpers_set")
      in Hjoin. now apply append_inj_r in Hjoin. }
  subst k0. destruct specialized; cbn; intros [= <-]; reflexivity.
Qed.

End helper_tables.

(** ** Looking the sets up by operator *)
Section helper_lookup.
Import Stdlib.Strings.Ascii PyStr HelperDefinitions.

Lemma upper_lower_char (c : Ascii.ascii) :
  upper_char (lower_char c) = upper_char c.
Proof. destruct c as [[] [] [] [] [] [] [] []]; reflexivity. Qed.

Lemma lower_upper_char (c : Ascii.ascii) :
  lower_char (upper_char c) = lower_char c.
Proof. destruct c as [[] [] [] [] [] [] [] []]; reflexivity. Qed.

Lemma lower_lower_char (c : Ascii.ascii) :
  lower_char (lower_char c) = lower_char c.
Proof. destruct c as [[] [] [] [] [] [] [] []]; reflexivity. Qed.

Lemma lower_char_i (c : Ascii.ascii) :
  lower_char c = "i"%char -> c = "i"%char \/ c = "I"%char.
Proof.
  destruct c as [[] [] [] [] [] [] [] []]; cbv; intros Hc;
    first [discriminate Hc | now left | now right].
Qed.

Lemma upper_lower (s : string) : upper (lower s) = upper s.
Proof.
  induction s as [|c s IH]; cbn; [reflexivity|].
  now rewrite upper_lower_char, IH.
Qed.

Lemma lower_upper (s : string) : lower (upper s) = lower s.
Proof.
  induction s as [|c s IH]; cbn; [reflexivity|].
  now rewrite lower_upper_char, IH.
Qed.

Lemma lower_lower (s : string) : lower (lower s) = lower s.
Proof.
  induction s as [|c s IH]; cbn; [reflexivity|].
  now rewrite lower_lower_char, IH.
Qed.

(** The map of the globals. *)
Definition globals_map : gmap string (option (list string)) :=
  list_to_map assignments_table.

Lemma module_globals_eq : module_globals = inr globals_map.
Proof. unfold module_globals. now rewrite module_assignments_eq. Qed.

Lemma globals_map_lookup (name : string) (value : option (list string)) :
  globals_map !! name = Some value <-> (name, value) ∈ assignments_table.
Proof.
  unfold globals_map. split.
  - apply elem_of_list_to_map_2.
  - apply elem_of_list_to_map_1, table_names_NoDup.
Qed.

(** The name looked up for an operator. *)
Definition global_name (specialized : bool) (operator : string) : string :=
  (if specialized then "specialized" else "nonspecialized")
  +:+ "_" +:+ lower operator +:+ "_helpers_set".

(** Either function, by family. *)
Definition getOperations (specialized : bool) (operator : string)
  : PyError + option (list string) :=
  if specialized then getSpecializedOperations operator
  else getNonSpecializedOperations operator.

Lemma getOperations_lookup (specialized : bool) (operator : string) :
  getOperations specialized operator
  = match globals_map !! global_name specialized operator with
    | Some helpers => inr helpers
    | None => inl (KeyError (global_name specialized operator))
    end.
Proof.
  destruct specialized; cbn [getOperations];
    [unfold getSpecializedOperations | unfold getNonSpecializedOperations];
    rewrite module_globals_eq; reflexivity.
Qed.

(** A global name that is assigned is the name of a known operator. *)
Lemma assigned_name_known (specialized : bool) (operator : string)
    (value : option (list string)) :
  (global_name specialized operator, value) ∈ assignments_table ->
  name_key (global_name specialized operator)
  = Some (specialized, lower operator)
  /\ lower operator ∈ known_operators.
Proof.
  intros Hin.
  pose proof table_names_known as Hknown.
  rewrite forallb_forall in Hknown.
  apply list_elem_of_In in Hin. specialize (Hknown _ Hin). cbn [fst] in Hknown.
  unfold name_known in Hknown.
  destruct (name_key (global_name specialized operator)) as [[b key]|] eqn:Hkey;
    [|discriminate].
  pose proof (name_key_of_lookup specialized (lower operator) _ eq_refl _ Hkey)
    as [= -> ->].
  split; [reflexivity|]. now apply bool_decide_eq_true_1 in Hknown.
Qed.

(** Every known operator has both its names assigned. *)
Lemma known_operators_assigned :
  forallb (fun key =>
             bool_decide (is_Some (globals_map !! ("specialized_" +:+ key
                                                   +:+ "_helpers_set")))
             && bool_decide (is_Some (globals_map !! ("nonspecialized_" +:+ key
                                                      +:+ "_helpers_set"))))
          known_operators
  = true.
Proof. vm_compute. reflexivity. Qed.

(** The two lookups succeed exactly for the operators the module has sets
    for, whatever the case of the letters of the operator; for every other
    operator they end in a [KeyError] for the global name that is
    missing. *)
Theorem getOperations_known_or_KeyError (operator : string) :
  if bool_decide (lower operator ∈ known_operators) then
    (exists helpers, getSpecializedOperations operator = inr helpers)
    /\ (exists helpers, getNonSpecializedOperations operator = inr helpers)
  else
    getSpecializedOperations operator
    = inl (KeyError ("specialized_" +:+ lower operator +:+ "_helpers_set"))
    /\ getNonSpecializedOperations operator
       = inl (KeyError ("nonspecialized_" +:+ lower operator
                        +:+ "_helpers_set")).
Proof.
  assert (Hs : getSpecializedOperations operator
               = match globals_map !! ("specialized_" +:+ lower operator
                                       +:+ "_helpers_set") with
                 | Some helpers => inr helpers
                 | None => inl (KeyError ("specialized_" +:+ lower operator
                                          +:+ "_helpers_set"))
                 end)
    by exact (getOperations_lookup true operator).
  assert (Hn : getNonSpecializedOperations operator
               = match globals_map !! ("nonspecialized_" +:+ lower operator
                                       +:+ "_helpers_set") with
                 | Some helpers => inr helpers
                 | None => inl (KeyError ("nonspecialized_" +:+ lower operator
                                          +:+ "_helpers_set"))
                 end)
    by exact (getOperations_lookup false operator).
  case_bool_decide as Hknown.
  - pose proof known_operators_assigned as Hall.
    rewrite forallb_forall in Hall.
    apply list_elem_of_In in Hknown. specialize (Hall _ Hknown).
    apply andb_true_iff in Hall as [H1 H2].
    apply bool_decide_eq_true_1 in H1 as [v1 H1].
    apply bool_decide_eq_true_1 in H2 as [v2 H2].
    rewrite Hs, Hn, H1, H2. eauto.
  - assert (Hnone : forall specialized,
               globals_map !! global_name specialized operator = None).
    { intros specialized.
      destruct (globals_map !! global_name specialized operator) as [v|] eqn:Hl;
        [|reflexivity].
      apply globals_map_lookup, assigned_name_known in Hl as [_ Hin].
      contradiction. }
    pose proof (Hnone true) as H1. pose proof (Hnone false) as H2.
    change (globals_map !! ("specialized_" +:+ lower operator
                            +:+ "_helpers_set") = None) in H1.
    change (globals_map !! ("nonspecialized_" +:+ lower operator
                            +:+ "_helpers_set") = None) in H2.
    rewrite Hs, Hn, H1, H2. split; reflexivity.
Qed.

(** The lookups do not depend on the case of the letters of the operator. *)
Theorem getOperations_ignore_case (operator : string) :
  getSpecializedOperations (upper operator) = getSpecializedOperations operator
  /\ getSpecializedOperations (lower operator)
     = getSpecializedOperations operator
  /\ getNonSpecializedOperations (upper operator)
     = getNonSpecializedOperations operator
  /\ getNonSpecializedOperations (lower operator)
     = getNonSpecializedOperations operator.
Proof.
  unfold getSpecializedOperations, getNonSpecializedOperations.
  rewrite lower_upper, lower_lower. repeat split.
Qed.

End helper_lookup.
